(** * Coffee shop API: a shallow embedding of [backend/src/api.py]

    The request handlers and the error handlers of the Flask application are
    embedded as functions over an explicit drink store.  The Python values
    that travel through the handlers (request bodies, response bodies, the
    claims of a token) are JSON shaped and live in the type [json].  Python
    exceptions are values of [Exn]; a handler is a computation in the monad
    [M], which threads the store and may raise. *)

From Stdlib Require Import Ascii String DecimalString DecimalZ DecimalPos.
From stdpp Require Import gmap strings list fin_maps sorting.

Open Scope string_scope.
Open Scope Z_scope.
Set Warnings "-register-all".

(** ** Python values of JSON shape *)

(** [None], [bool], [int], [str], [list] and [dict] with string keys: what
    [request.get_json()] returns and what [jsonify] accepts.  Numbers are
    the integers; a dict is the list of its items. *)
Inductive json : Type :=
| JNull
| JBool (b : bool)
| JNum (n : Z)
| JStr (s : string)
| JArr (l : list json)
| JObj (kvs : list (string * json)).

(** Lookup of a key in the items of a dict. *)
Fixpoint dict_lookup {V} (k : string) (kvs : list (string * V)) : option V :=
  match kvs with
  | [] => None
  | (k', v) :: rest => if decide (k = k') then Some v else dict_lookup k rest
  end.

(** Truth value of an object, as tested by [if x:]. *)
Definition truthy (v : json) : bool :=
  match v with
  | JNull => false
  | JBool b => b
  | JNum n => negb (n =? 0)
  | JStr s => negb (String.eqb s "")
  | JArr l => negb (length l =? 0)%nat
  | JObj kvs => negb (length kvs =? 0)%nat
  end.

(** Induction on a value, with the elements of a list and the values of
    a dict as premises. *)
Section JsonInduction.
Variable P : json → Prop.
Hypothesis Hnull : P JNull.
Hypothesis Hbool : ∀ b, P (JBool b).
Hypothesis Hnum : ∀ n, P (JNum n).
Hypothesis Hstr : ∀ s, P (JStr s).
Hypothesis Harr : ∀ l, Forall P l → P (JArr l).
Hypothesis Hobj : ∀ kvs, Forall (λ kv, P kv.2) kvs → P (JObj kvs).

Fixpoint json_nested_ind (v : json) : P v :=
  match v with
  | JNull => Hnull
  | JBool b => Hbool b
  | JNum n => Hnum n
  | JStr s => Hstr s
  | JArr l =>
      Harr l ((fix go (l : list json) : Forall P l :=
                 match l return Forall P l with
                 | [] => @List.Forall_nil _ P
                 | x :: r => @List.Forall_cons _ P x r (json_nested_ind x) (go r)
                 end) l)
  | JObj kvs =>
      Hobj kvs
        ((fix go (kvs : list (string * json)) : Forall (λ kv, P kv.2) kvs :=
            match kvs return Forall (λ kv, P kv.2) kvs with
            | [] => @List.Forall_nil _ (λ kv, P kv.2)
            | kv :: r =>
                @List.Forall_cons _ (λ kv, P kv.2) kv r (json_nested_ind kv.2) (go r)
            end) kvs)
  end.
End JsonInduction.

(** ** Exceptions *)

(** The [description] attribute of a werkzeug [HTTPException]: the default
    text of the status code, a text given to [abort], or a dict.  The values
    of such a dict are texts, as in the code/description pairs of auth
    errors. *)
Inductive Description : Type :=
| DefaultDescription
| TextDescription (s : string)
| DictDescription (d : list (string * string)).

Record HTTPException : Type := mkHTTPException {
  code : Z;
  description : Description
}.

(** Modelled from the spec: the class [AuthError] of auth/auth.py (not under
    src/), "a structured auth error carrying an HTTP status (400/401) and a
    machine-readable code/description pair"; the two fields are the
    attributes [handle_auth_error] reads. *)
Record AuthError : Type := mkAuthError {
  error : json;
  status_code : Z
}.

Inductive Exn : Type :=
| Http (e : HTTPException)
| Auth (e : AuthError)
| PyError (name : string). (* AttributeError, TypeError, IntegrityError, ... *)

Inductive Result (A : Type) : Type :=
| Ok (a : A)
| Raise (e : Exn).
Arguments Ok {A} a.
Arguments Raise {A} e.

(** [flask.abort(code)] *)
Definition abort {A} (c : Z) : Result A :=
  Raise (Http (mkHTTPException c DefaultDescription)).

(** [body.get(key, None)]: only a dict has the method. *)
Definition py_get (body : json) (key : string) : Result json :=
  match body with
  | JObj kvs => Ok (default JNull (dict_lookup key kvs))
  | _ => Raise (PyError "AttributeError")
  end.

(** [r[key]] on a decoded recipe entry. *)
Definition py_getitem (r : json) (key : string) : Result json :=
  match r with
  | JObj kvs =>
      match dict_lookup key kvs with
      | Some v => Ok v
      | None => Raise (PyError "KeyError")
      end
  | _ => Raise (PyError "TypeError")
  end.

(** A list comprehension [[f(x) for x in l]]: the first exception ends it. *)
Fixpoint comprehension {A B} (f : A → Result B) (l : list A) : Result (list B) :=
  match l with
  | [] => Ok []
  | x :: rest =>
      match f x with
      | Ok y =>
          match comprehension f rest with
          | Ok ys => Ok (y :: ys)
          | Raise e => Raise e
          end
      | Raise e => Raise e
      end
  end.

(** ** The [json] module of the Python library

    [json.dumps] and [json.loads] are taken as an interface; the theorems
    below say which of their properties they use. *)
Class JsonModule : Type := {
  json_dumps : json → string;
  json_loads : string → option json
}.

(** ** Responses *)

Inductive Body : Type :=
| JsonBody (j : json)   (* built by [jsonify] *)
| HtmlBody.             (* werkzeug's own error page *)

Record Response : Type := mkResponse {
  status : Z;
  body : Body
}.

(** [jsonify(d)] is a 200 response; [(jsonify(d), c)] has status [c]. *)
Definition jsonify (d : json) : Response := mkResponse 200 (JsonBody d).
Definition with_status (r : Response) (c : Z) : Response := mkResponse c (body r).

(** ** The drink store *)

(** Modelled from the spec: the table of class [Drink] of
    database/models.py (not under src/).  A row holds the title and the
    recipe "stored as serialized text"; the key of the map is the primary
    key [id]. *)
Record Row : Type := mkRow {
  row_title : string;
  row_recipe : string   (* the recipe as serialized text *)
}.

Abbreviation Store := (gmap Z Row).

(** Handlers run against the store and may raise; the store survives an
    exception (what was committed stays committed). *)
Definition M (A : Type) : Type := Store → Result A * Store.

Definition ret {A} (a : A) : M A := λ s, (Ok a, s).
Definition lift {A} (r : Result A) : M A := λ s, (r, s).
Definition bind {A B} (m : M A) (k : A → M B) : M B :=
  λ s, match m s with
       | (Ok a, s') => k a s'
       | (Raise e, s') => (Raise e, s')
       end.

Notation "'let!' x := m 'in' k" := (bind m (λ x, k))
  (at level 10, x name, m at level 100, k at level 200).

(** [try: body except: handler] with a bare [except]. *)
Definition try_except {A} (body : M A) (handler : M A) : M A :=
  λ s, match body s with
       | (Ok a, s') => (Ok a, s')
       | (Raise _, s') => handler s'
       end.

(** ** The title column

    Modelled from the spec: the column [title] of class [Drink]
    (database/models.py, not under src/), "title (string, required,
    unique)".  api.py hands the title of the request body to the database
    unchecked, and the spec does not say what the database does with a
    value that is no string.  That is a parameter of the model: the
    database keeps a text for the value, or refuses it ([None]).  A string
    is kept as it is, and the text kept for a value that is not falsy is
    not empty. *)
Class TitleColumn : Type := {
  title_text : json → option string;
  title_text_str : ∀ s, title_text (JStr s) = Some s;
  title_text_truthy : ∀ v t, truthy v = true → title_text v = Some t → t ≠ ""
}.

Module Drink.

(** Modelled from the spec: an object of class [Drink], with the attributes
    api.py reads and writes; [id] is [None] until the object is inserted. *)
Record t : Type := mk {
  id : option Z;
  title : json;
  recipe : string
}.

Definition of_row (kr : Z * Row) : t :=
  mk (Some kr.1) (JStr (row_title kr.2)) (row_recipe kr.2).

Definition id_le (a b : Z * Row) : Prop := a.1 ≤ b.1.

#[global] Instance id_le_dec : RelDecision id_le.
Proof. intros a b. unfold id_le. apply _. Defined.

(** The rows of the table in the order of [ORDER BY id]. *)
Definition order_by_id (s : Store) : list (Z * Row) :=
  merge_sort id_le (map_to_list s).

(** [Drink.query.order_by(Drink.id).all()] *)
Definition query_order_by_id_all (s : Store) : list t :=
  of_row <$> order_by_id s.

(** The integers the database binds as an id: those of 64 bits with a
    sign. *)
Definition in_range (drink_id : Z) : Prop := - 2 ^ 63 ≤ drink_id < 2 ^ 63.

(** [Drink.query.filter(Drink.id == drink_id).one_or_none()]: the id is
    the primary key, so at most one row matches.  The query raises when the
    id cannot be bound ([<int:drink_id>] puts no bound on the id of the
    URL).  The id of a stored row has been bound when the row was written,
    so the query raises only for an id that matches no row. *)
Definition query_filter_id_one_or_none (drink_id : Z) (s : Store) : Result (option t) :=
  match s !! drink_id with
  | Some r => Ok (Some (of_row (drink_id, r)))
  | None =>
      if decide (in_range drink_id) then Ok None
      else Raise (PyError "OverflowError")
  end.

(** Modelled from the spec: the title is "unique".  Some row other than
    [self] holds the title. *)
Definition title_taken (t : string) (self : option Z) (s : Store) : Prop :=
  map_Exists (λ k r, row_title r = t ∧ Some k ≠ self) s.

(** Modelled from the spec: the id is "server-assigned".  The id given to
    a new row is one more than the largest id in use. *)
Definition next_id (s : Store) : Z :=
  1 + foldr Z.max 0 (map_to_list s).*1.

Section Writes.
Context `{TitleColumn}.

(** Modelled from the spec: [Drink.insert] of database/models.py (not under
    src/).  "Create: inserts one record; any persistence failure
    (constraint violation, serialization error) surfaces" as an exception.
    The title is kept as the column keeps it ([title_text]) and is
    "unique"; the id is assigned by the server.  The object comes back as
    the session reloads it after the commit: with its id and the title
    kept. *)
Definition insert (d : t) : M t :=
  λ s, match title_text (title d) with
       | Some ttl =>
           if decide (title_taken ttl None s) then (Raise (PyError "IntegrityError"), s)
           else let k := next_id s in
                (Ok (mk (Some k) (JStr ttl) (recipe d)), <[k := mkRow ttl (recipe d)]> s)
       | None => (Raise (PyError "StatementError"), s)
       end.

(** Modelled from the spec: [Drink.update] of database/models.py (not under
    src/).  The row of the object takes the object's title, as the column
    keeps it, and the object's recipe; a title that the column refuses or
    that another row holds is a persistence failure and leaves the store as
    it was.  The object comes back as the session reloads it after the
    commit. *)
Definition update (d : t) : M t :=
  λ s, match id d, title_text (title d) with
       | Some k, Some ttl =>
           if decide (title_taken ttl (Some k) s) then (Raise (PyError "IntegrityError"), s)
           else match s !! k with
                | Some _ =>
                    (Ok (mk (Some k) (JStr ttl) (recipe d)), <[k := mkRow ttl (recipe d)]> s)
                | None => (Raise (PyError "StaleDataError"), s)
                end
       | _, _ => (Raise (PyError "StatementError"), s)
       end.

End Writes.

(** Modelled from the spec: [Drink.delete] of database/models.py (not under
    src/).  "Delete: ... removes the record". *)
Definition delete (d : t) : M unit :=
  λ s, match id d with
       | Some k => (Ok (), base.delete k s)
       | None => (Raise (PyError "InvalidRequestError"), s)
       end.

Definition json_of_id (i : option Z) : json :=
  match i with Some k => JNum k | None => JNull end.

Section Views.
Context `{JsonModule}.

(** Modelled from the spec: [Drink.long] of database/models.py (not under
    src/).  The "long" view: id, title and the full recipe, decoded from
    the stored text. *)
Definition long (d : t) : Result json :=
  match json_loads (recipe d) with
  | Some r => Ok (JObj [("id", json_of_id (id d)); ("title", title d); ("recipe", r)])
  | None => Raise (PyError "JSONDecodeError")
  end.

(** One ingredient of the short view: colour and parts only. *)
Definition short_entry (r : json) : Result json :=
  match py_getitem r "color" with
  | Ok c =>
      match py_getitem r "parts" with
      | Ok p => Ok (JObj [("color", c); ("parts", p)])
      | Raise e => Raise e
      end
  | Raise e => Raise e
  end.

(** Modelled from the spec: [Drink.short] of database/models.py (not under
    src/).  The "short" view: id, title and the recipe "with color/parts
    only"; the stored text must decode to a list of ingredient entries. *)
Definition short (d : t) : Result json :=
  match json_loads (recipe d) with
  | Some (JArr l) =>
      match comprehension short_entry l with
      | Ok entries =>
          Ok (JObj [("id", json_of_id (id d)); ("title", title d); ("recipe", JArr entries)])
      | Raise e => Raise e
      end
  | Some _ => Raise (PyError "TypeError")
  | None => Raise (PyError "JSONDecodeError")
  end.
End Views.

End Drink.

(** ** The request *)

(** What [request.get_json()] finds in the request. *)
Inductive Request : Type :=
| NoJson                 (* no JSON content: [get_json()] returns [None] *)
| BadJson                (* JSON content that does not parse *)
| JsonRequest (v : json).

(** [request.get_json()]: [None] when the request carries no JSON, a
    [BadRequest] when the content does not parse. *)
Definition get_json (request : Request) : Result json :=
  match request with
  | NoJson => Ok JNull
  | BadJson => abort 400
  | JsonRequest v => Ok v
  end.

(** ** Routes of api.py *)

Section Routes.
Context `{JsonModule} `{TitleColumn}.

(** [GET /drinks] *)
Definition retrieve_drinks : M Response :=
  λ s,
    let all_drinks := Drink.query_order_by_id_all s in
    if (length all_drinks =? 0)%nat then (abort 404, s)
    else
      match comprehension Drink.short all_drinks with
      | Ok formatted_drinks =>
          (Ok (jsonify (JObj [("success", JBool true); ("drinks", JArr formatted_drinks)])), s)
      | Raise e => (Raise e, s)
      end.

(** [GET /drinks-detail], behind [requires_auth('get:drinks-detail')]: the
    function runs once the gate has passed, on the payload of the token. *)
Definition get_drinks_detail (jwt_payload : json) : M Response :=
  λ s,
    let all_drinks := Drink.query_order_by_id_all s in
    if (length all_drinks =? 0)%nat then (abort 404, s)
    else
      match comprehension Drink.long all_drinks with
      | Ok formatted_drinks =>
          (Ok (jsonify (JObj [("success", JBool true); ("drinks", JArr formatted_drinks)])), s)
      | Raise e => (Raise e, s)
      end.

(** [POST /drinks], behind [requires_auth('post:drinks')].  The body is read
    before the [try] block. *)
Definition create_drink (jwt_payload : json) (request : Request) : M Response :=
  let! body := lift (get_json request) in
  let! new_title := lift (py_get body "title") in
  let! recipe_value := lift (py_get body "recipe") in
  let new_recipe := json_dumps recipe_value in
  try_except
    (let drink := Drink.mk None new_title new_recipe in
     let! drink := Drink.insert drink in
     let! long := lift (Drink.long drink) in
     ret (jsonify (JObj [("success", JBool true); ("drinks", JArr [long])])))
    (lift (abort 422)).

(** [PATCH /drinks/<int:drink_id>], behind [requires_auth('patch:drinks')].
    The query runs inside the [try] block, with the local [not_found] still
    false; [not_found] is set just before the exception of the missing
    record is raised, and the bare [except] reads it. *)
Definition modify_drink (jwt_payload : json) (drink_id : Z) (request : Request)
  : M Response :=
  λ s,
    let not_found := false in
    let '(not_found, outcome) :=
      match Drink.query_filter_id_one_or_none drink_id s with
      | Raise e => (not_found, (Raise e, s))
      | Ok None => (true, (Raise (PyError "Exception"), s))
      | Ok (Some drink_obj) =>
          (not_found,
           (let! body := lift (get_json request) in
            let! new_title := lift (py_get body "title") in
            let! new_recipe := lift (py_get body "recipe") in
            let drink_obj :=
              if truthy new_title
              then Drink.mk (Drink.id drink_obj) new_title (Drink.recipe drink_obj)
              else drink_obj in
            let drink_obj :=
              if truthy new_recipe
              then Drink.mk (Drink.id drink_obj) (Drink.title drink_obj) (json_dumps new_recipe)
              else drink_obj in
            let! drink_obj := Drink.update drink_obj in
            let! long := lift (Drink.long drink_obj) in
            ret (jsonify (JObj [("success", JBool true); ("drinks", JArr [long])]))) s)
      end in
    match outcome with
    | (Ok response, s') => (Ok response, s')
    | (Raise _, s') => if not_found then (abort 404, s') else (abort 422, s')
    end.

(** [DELETE /drinks/<int:drink_id>], behind [requires_auth('delete:drinks')].
    The query runs inside the [try] block, as in [modify_drink]. *)
Definition delete_drink (jwt_payload : json) (drink_id : Z) : M Response :=
  λ s,
    let not_found := false in
    let '(not_found, outcome) :=
      match Drink.query_filter_id_one_or_none drink_id s with
      | Raise e => (not_found, (Raise e, s))
      | Ok None => (true, (Raise (PyError "Exception"), s))
      | Ok (Some drink_obj) =>
          (not_found,
           (let! _ := Drink.delete drink_obj in
            ret (jsonify (JObj [("success", JBool true); ("delete", JNum drink_id)]))) s)
      end in
    match outcome with
    | (Ok response, s') => (Ok response, s')
    | (Raise _, s') => if not_found then (abort 404, s') else (abort 422, s')
    end.

End Routes.

(** ** Error handlers of api.py *)

(** [@app.errorhandler(404)] *)
Definition not_found (error : HTTPException) : Response :=
  with_status
    (jsonify (JObj [("success", JBool false); ("error", JNum 404);
                    ("message", JStr "resource not found")])) 404.

(** [@app.errorhandler(422)] *)
Definition unprocessable (error : HTTPException) : Response :=
  with_status
    (jsonify (JObj [("success", JBool false); ("error", JNum 422);
                    ("message", JStr "unprocessable")])) 422.

(** [@app.errorhandler(405)]; in api.py this function is named [not_found]
    a second time. *)
Definition not_found_405 (error : HTTPException) : Response :=
  with_status
    (jsonify (JObj [("success", JBool false); ("error", JNum 405);
                    ("message", JStr "method not allowed")])) 405.

(** [@app.errorhandler(500)] *)
Definition internal_server_error (error : HTTPException) : Response :=
  with_status
    (jsonify (JObj [("success", JBool false); ("error", JNum 500);
                    ("message", JStr "Internal server error")])) 500.

(** [isinstance(d, dict) and 'code' in d and 'description' in d], with the
    two entries when the test holds. *)
Definition code_and_description (d : Description) : option (string * string) :=
  match d with
  | DictDescription kvs =>
      match dict_lookup "code" kvs, dict_lookup "description" kvs with
      | Some c, Some dsc => Some (c, dsc)
      | _, _ => None
      end
  | _ => None
  end.

(** [@app.errorhandler(400)] *)
Definition bad_request (error : HTTPException) : Response :=
  match code_and_description (description error) with
  | Some (c, dsc) =>
      with_status
        (jsonify (JObj [("success", JBool false); ("error", JNum 400);
                        ("message", JStr (c ++ " : " ++ dsc))])) 400
  | None =>
      with_status
        (jsonify (JObj [("success", JBool false); ("error", JNum 400);
                        ("message", JStr "bad request")])) 400
  end.

(** [@app.errorhandler(401)] *)
Definition unauthorized (error : HTTPException) : Response :=
  match code_and_description (description error) with
  | Some (c, dsc) =>
      with_status
        (jsonify (JObj [("success", JBool false); ("error", JNum 401);
                        ("message", JStr (c ++ " : " ++ dsc))])) 401
  | None =>
      with_status
        (jsonify (JObj [("success", JBool false); ("error", JNum 401);
                        ("message", JStr "Unauthorized")])) 401
  end.

(** [@app.errorhandler(403)] *)
Definition forbidden (error : HTTPException) : Response :=
  match code_and_description (description error) with
  | Some (c, dsc) =>
      with_status
        (jsonify (JObj [("success", JBool false); ("error", JNum 403);
                        ("message", JStr (c ++ " : " ++ dsc))])) 403
  | None =>
      with_status
        (jsonify (JObj [("success", JBool false); ("error", JNum 403);
                        ("message", JStr "Forbidden")])) 403
  end.

(** [@app.errorhandler(AuthError)] *)
Definition handle_auth_error (ex : AuthError) : Response :=
  let response := jsonify (error ex) in
  with_status response (status_code ex).

(** Flask's choice among the registered handlers: by status code for an
    [HTTPException] (werkzeug's own page when none is registered), by class
    for [AuthError]; any other exception ends in the handler of 500. *)
Definition handle_user_exception (e : Exn) : Response :=
  match e with
  | Http err =>
      if code err =? 404 then not_found err
      else if code err =? 422 then unprocessable err
      else if code err =? 405 then not_found_405 err
      else if code err =? 500 then internal_server_error err
      else if code err =? 400 then bad_request err
      else if code err =? 401 then unauthorized err
      else if code err =? 403 then forbidden err
      else mkResponse (code err) HtmlBody
  | Auth ex => handle_auth_error ex
  | PyError _ => internal_server_error (mkHTTPException 500 DefaultDescription)
  end.

(** A request served by a view function: its response, or the response of
    the error handler of the exception it raised. *)
Definition dispatch_request (view : M Response) (s : Store) : Response * Store :=
  match view s with
  | (Ok response, s') => (response, s')
  | (Raise e, s') => (handle_user_exception e, s')
  end.

(** ** Requests served one after the other *)

(** A request as it reaches the application: one of the five routes, with
    the payload of the token once the permission gate has passed, or a
    request the gate turned down with an exception. *)
Inductive Call : Type :=
| GET_drinks
| GET_drinks_detail (jwt_payload : json)
| POST_drinks (jwt_payload : json) (request : Request)
| PATCH_drinks (jwt_payload : json) (drink_id : Z) (request : Request)
| DELETE_drinks (jwt_payload : json) (drink_id : Z)
| Rejected (e : Exn).

Section Serving.
Context `{JsonModule} `{TitleColumn}.

Definition serve_one (c : Call) (s : Store) : Response * Store :=
  match c with
  | GET_drinks => dispatch_request retrieve_drinks s
  | GET_drinks_detail jwt_payload => dispatch_request (get_drinks_detail jwt_payload) s
  | POST_drinks jwt_payload request => dispatch_request (create_drink jwt_payload request) s
  | PATCH_drinks jwt_payload drink_id request =>
      dispatch_request (modify_drink jwt_payload drink_id request) s
  | DELETE_drinks jwt_payload drink_id =>
      dispatch_request (delete_drink jwt_payload drink_id) s
  | Rejected e => (handle_user_exception e, s)
  end.

(** The responses to a sequence of requests, and the store they leave. *)
Fixpoint serve (calls : list Call) (s : Store) : list Response * Store :=
  match calls with
  | [] => ([], s)
  | c :: rest =>
      let '(r, s') := serve_one c s in
      let '(rs, s'') := serve rest s' in
      (r :: rs, s'')
  end.

End Serving.

(** ** An implementation of the [json] interface

    The text [json.dumps] writes for a value of type [json], with its
    default separators and [ensure_ascii]: in a string, the quote, the
    backslash and every character outside [' '..'~'] are escaped.  A
    character of a string is one of the 256 code points a Rocq character
    can hold.  The reader reads such texts back
    ([PyJsonFacts.loads_dumps]); like [json.loads] it knows the escapes
    and refuses a raw control character in a string, but it reads integers
    only (no fraction, no exponent), no code point above 255, and it keeps
    the members of an object as they are written.  The examples below run
    the handlers on it; the theorems are stated for any [JsonModule]. *)

Module PyJson.
#[local] Open Scope list_scope.

Definition chars (s : string) : list ascii := list_ascii_of_string s.

Definition quote : ascii := "034"%char.
Definition backslash : ascii := "092"%char.

Definition hex_digit (n : nat) : ascii :=
  nth n (chars "0123456789abcdef") "0"%char.

(** A character of a string as [json.dumps] writes it. *)
Definition escape_char (c : ascii) : list ascii :=
  if decide (c = quote) then [backslash; quote]
  else if decide (c = backslash) then [backslash; backslash]
  else if decide (c = "010"%char) then [backslash; "n"%char]
  else if decide (c = "013"%char) then [backslash; "r"%char]
  else if decide (c = "009"%char) then [backslash; "t"%char]
  else if decide (c = "008"%char) then [backslash; "b"%char]
  else if decide (c = "012"%char) then [backslash; "f"%char]
  else if bool_decide (32 ≤ nat_of_ascii c ≤ 126)%nat then [c]
  else
    let n := nat_of_ascii c in
    [backslash; "u"%char; "0"%char; "0"%char;
     hex_digit (n / 16)%nat; hex_digit (n mod 16)%nat].

Fixpoint escape (s : list ascii) : list ascii :=
  match s with
  | [] => []
  | c :: r => escape_char c ++ escape r
  end.

Definition quoted (s : string) : list ascii :=
  quote :: escape (chars s) ++ [quote].

Definition number (n : Z) : list ascii :=
  chars (NilZero.string_of_int (Z.to_int n)).

(** The items of a list or dict, separated by [", "]. *)
Fixpoint join (items : list (list ascii)) : list ascii :=
  match items with
  | [] => []
  | [x] => x
  | x :: rest => x ++ chars ", " ++ join rest
  end.

Fixpoint write (v : json) : list ascii :=
  match v with
  | JNull => chars "null"
  | JBool true => chars "true"
  | JBool false => chars "false"
  | JNum n => number n
  | JStr s => quoted s
  | JArr l => chars "[" ++ join (map write l) ++ chars "]"
  | JObj kvs =>
      chars "{" ++ join (map (λ kv, quoted kv.1 ++ chars ": " ++ write kv.2) kvs) ++ chars "}"
  end.

Definition dumps (v : json) : string := string_of_list_ascii (write v).

Definition is_space (c : ascii) : bool :=
  bool_decide (c = " "%char ∨ c = "010"%char ∨ c = "009"%char ∨ c = "013"%char).

Fixpoint skip_ws (s : list ascii) : list ascii :=
  match s with
  | c :: r => if is_space c then skip_ws r else s
  | [] => []
  end.

(** The value of a hexadecimal digit, in either case. *)
Definition hex_value (c : ascii) : option nat :=
  let n := nat_of_ascii c in
  if bool_decide (48 ≤ n ≤ 57)%nat then Some (n - 48)%nat
  else if bool_decide (97 ≤ n ≤ 102)%nat then Some (n - 87)%nat
  else if bool_decide (65 ≤ n ≤ 70)%nat then Some (n - 55)%nat
  else None.

(** The character [\uXXXX] stands for, when it is below 256. *)
Definition code_point (h1 h2 h3 h4 : ascii) : option ascii :=
  match hex_value h1, hex_value h2, hex_value h3, hex_value h4 with
  | Some a, Some b, Some c, Some d =>
      let n := (((a * 16 + b) * 16 + c) * 16 + d)%nat in
      if (n <? 256)%nat then Some (ascii_of_nat n) else None
  | _, _, _, _ => None
  end.

(** The character a backslash and [c] stand for. *)
Definition unescape (c : ascii) : option ascii :=
  if decide (c = quote) then Some quote
  else if decide (c = backslash) then Some backslash
  else if decide (c = "/"%char) then Some "/"%char
  else if decide (c = "n"%char) then Some "010"%char
  else if decide (c = "r"%char) then Some "013"%char
  else if decide (c = "t"%char) then Some "009"%char
  else if decide (c = "b"%char) then Some "008"%char
  else if decide (c = "f"%char) then Some "012"%char
  else None.

(** The characters of a string, up to its closing quote. *)
Fixpoint read_chars (s : list ascii) : option (list ascii * list ascii) :=
  match s with
  | [] => None
  | c :: r =>
      if decide (c = quote) then Some ([], r)
      else if decide (c = backslash) then
        match r with
        | c' :: r' =>
            if decide (c' = "u"%char) then
              match r' with
              | h1 :: h2 :: h3 :: h4 :: r'' =>
                  match code_point h1 h2 h3 h4, read_chars r'' with
                  | Some x, Some (t, rest) => Some (x :: t, rest)
                  | _, _ => None
                  end
              | _ => None
              end
            else
              match unescape c', read_chars r' with
              | Some x, Some (t, rest) => Some (x :: t, rest)
              | _, _ => None
              end
        | [] => None
        end
      else if (nat_of_ascii c <? 32)%nat then None
      else
        match read_chars r with
        | Some (t, rest) => Some (c :: t, rest)
        | None => None
        end
  end.

Definition read_string (s : list ascii) : option (string * list ascii) :=
  match read_chars s with
  | Some (t, rest) => Some (string_of_list_ascii t, rest)
  | None => None
  end.

Definition number_char (c : ascii) : bool :=
  bool_decide (c = "-"%char) || bool_decide (48 ≤ nat_of_ascii c ≤ 57)%nat.

Fixpoint span_number (s : list ascii) : list ascii * list ascii :=
  match s with
  | c :: r =>
      if number_char c then let '(p, rest) := span_number r in (c :: p, rest)
      else ([], s)
  | [] => ([], [])
  end.

(** An integer, written without a sign or with [-], and without leading
    zeros. *)
Definition read_number (s : list ascii) : option (json * list ascii) :=
  let '(p, rest) := span_number s in
  match NilZero.int_of_string (string_of_list_ascii p) with
  | Some d =>
      let n := Z.of_int d in
      if decide (number n = p ∨ p = chars "-0") then Some (JNum n, rest) else None
  | None => None
  end.

(** [s] without the prefix [lit]. *)
Fixpoint expect (lit s : list ascii) : option (list ascii) :=
  match lit, s with
  | [], _ => Some s
  | c :: lit', c' :: s' => if decide (c = c') then expect lit' s' else None
  | _ :: _, [] => None
  end.

Fixpoint read_value (fuel : nat) (s : list ascii) : option (json * list ascii) :=
  match fuel with
  | O => None
  | S fuel =>
      match skip_ws s with
      | [] => None
      | c :: r =>
          if number_char c then read_number (c :: r)
          else if decide (c = quote) then
            match read_string r with
            | Some (t, rest) => Some (JStr t, rest)
            | None => None
            end
          else if decide (c = "["%char) then
            match expect (chars "]") (skip_ws r) with
            | Some rest => Some (JArr [], rest)
            | None =>
                match read_elements fuel r with
                | Some (l, rest) => Some (JArr l, rest)
                | None => None
                end
            end
          else if decide (c = "{"%char) then
            match expect (chars "}") (skip_ws r) with
            | Some rest => Some (JObj [], rest)
            | None =>
                match read_members fuel r with
                | Some (kvs, rest) => Some (JObj kvs, rest)
                | None => None
                end
            end
          else if decide (c = "n"%char) then
            match expect (chars "ull") r with
            | Some rest => Some (JNull, rest)
            | None => None
            end
          else if decide (c = "t"%char) then
            match expect (chars "rue") r with
            | Some rest => Some (JBool true, rest)
            | None => None
            end
          else if decide (c = "f"%char) then
            match expect (chars "alse") r with
            | Some rest => Some (JBool false, rest)
            | None => None
            end
          else None
      end
  end
with read_elements (fuel : nat) (s : list ascii) : option (list json * list ascii) :=
  match fuel with
  | O => None
  | S fuel =>
      match read_value fuel s with
      | Some (v, r) =>
          match skip_ws r with
          | c :: r' =>
              if decide (c = ","%char) then
                match read_elements fuel r' with
                | Some (l, rest) => Some (v :: l, rest)
                | None => None
                end
              else if decide (c = "]"%char) then Some ([v], r')
              else None
          | [] => None
          end
      | None => None
      end
  end
with read_members (fuel : nat) (s : list ascii)
  : option (list (string * json) * list ascii) :=
  match fuel with
  | O => None
  | S fuel =>
      match expect [quote] (skip_ws s) with
      | Some r =>
          match read_string r with
          | Some (k, r1) =>
              match expect (chars ":") (skip_ws r1) with
              | Some r2 =>
                  match read_value fuel r2 with
                  | Some (v, r3) =>
                      match skip_ws r3 with
                      | c :: r4 =>
                          if decide (c = ","%char) then
                            match read_members fuel r4 with
                            | Some (kvs, rest) => Some ((k, v) :: kvs, rest)
                            | None => None
                            end
                          else if decide (c = "}"%char) then Some ([(k, v)], r4)
                          else None
                      | [] => None
                      end
                  | None => None
                  end
              | None => None
              end
          | None => None
          end
      | None => None
      end
  end.

Definition loads (s : string) : option json :=
  let text := list_ascii_of_string s in
  match read_value (S (length text)) text with
  | Some (v, rest) =>
      match skip_ws rest with
      | [] => Some v
      | _ => None
      end
  | None => None
  end.

(** The text after a number does not go on with a character of a number. *)
Definition ends_number (rest : list ascii) : Prop :=
  match rest with
  | c :: _ => number_char c = false
  | [] => True
  end.

(** The text starts with the first character of a value. *)
Definition starts_value (s : list ascii) : Prop :=
  ∃ c w, s = c :: w ∧ is_space c = false ∧ c ≠ "]"%char ∧ c ≠ "}"%char.

(** With enough fuel, the reader gets [v] back from the text of [v],
    whatever blanks come before it and whatever text follows. *)
Definition reads_back (v : json) : Prop :=
  ∀ fuel s rest,
    (length (write v) < fuel)%nat → ends_number rest →
    skip_ws s = write v ++ rest →
    read_value fuel s = Some (v, rest).

(** The text of one item of a dict. *)
Definition entry (kv : string * json) : list ascii :=
  quoted kv.1 ++ chars ": " ++ write kv.2.

End PyJson.

#[global] Instance py_json : JsonModule :=
  {| json_dumps := PyJson.dumps; json_loads := PyJson.loads |}.

(** ** A title column that keeps strings only

    The column of the examples: it refuses every value that is no string. *)
Definition string_title (v : json) : option string :=
  match v with
  | JStr s => Some s
  | _ => None
  end.

#[global] Instance string_titles : TitleColumn.
Proof.
  refine {| title_text := string_title |}.
  - reflexivity.
  - intros [| | |s| |] t Hv; try discriminate. intros [= <-] ->. discriminate.
Defined.

Definition water_recipe : json :=
  JArr [JObj [("name", JStr "water"); ("color", JStr "blue"); ("parts", JNum 1)]].
Definition latte_recipe : json :=
  JArr [JObj [("name", JStr "milk"); ("color", JStr "white"); ("parts", JNum 3)];
        JObj [("name", JStr "coffee"); ("color", JStr "brown"); ("parts", JNum 1)]].

(** A store with two drinks, for the examples. *)
Definition two_drinks : Store :=
  <[7 := mkRow "Latte" (json_dumps latte_recipe)]>
    (<[3 := mkRow "Water" (json_dumps water_recipe)]> ∅).

(** ** Reading a response *)

(** The entry of a key in a JSON object. *)
Definition field (k : string) (v : json) : option json :=
  match v with
  | JObj kvs => dict_lookup k kvs
  | _ => None
  end.

(** The [drinks] array of a response, when it has one. *)
Definition drinks_of (r : Response) : option (list json) :=
  match body r with
  | JsonBody v =>
      match field "drinks" v with
      | Some (JArr l) => Some l
      | _ => None
      end
  | HtmlBody => None
  end.

(** The error envelope [{success: false, error: c, message: m}]. *)
Definition envelope (c : Z) (m : string) : json :=
  JObj [("success", JBool false); ("error", JNum c); ("message", JStr m)].

(** The body is an object that has the three entries of an envelope. *)
Definition is_envelope (r : Response) : bool :=
  match body r with
  | JsonBody v =>
      match field "success" v, field "error" v, field "message" v with
      | Some (JBool false), Some (JNum c), Some (JStr _) => bool_decide (c = status r)
      | _, _, _ => false
      end
  | HtmlBody => false
  end.

(** ** What a PATCH writes *)

(** The title and the recipe text of a record after a PATCH whose body is
    the object [kvs]: a value of the body that is truthy replaces the stored
    one. *)
Definition patched_title (row : Row) (kvs : list (string * json)) : json :=
  let new_title := default JNull (dict_lookup "title" kvs) in
  if truthy new_title then new_title else JStr (row_title row).

Definition patched_recipe `{JsonModule} (row : Row) (kvs : list (string * json)) : string :=
  let new_recipe := default JNull (dict_lookup "recipe" kvs) in
  if truthy new_recipe then json_dumps new_recipe else row_recipe row.

(** ** Stored recipes that can be rendered *)

(** The recipe text of the row decodes. *)
Definition decodable `{JsonModule} (r : Row) : Prop :=
  is_Some (json_loads (row_recipe r)).

Definition has_color_and_parts (e : json) : Prop :=
  ∃ kvs c p,
    e = JObj kvs ∧ dict_lookup "color" kvs = Some c ∧ dict_lookup "parts" kvs = Some p.

(** The recipe text of the row decodes to a list of ingredient entries. *)
Definition ingredient_list `{JsonModule} (r : Row) : Prop :=
  ∃ l, json_loads (row_recipe r) = Some (JArr l) ∧ Forall has_color_and_parts l.

(** [views] renders every row of the store once, in ascending order of id,
    and each view carries the id of its row. *)
Definition lists_all_by_id (render : Drink.t → Result json) (s : Store)
    (views : list json) : Prop :=
  ∃ rows,
    rows ≡ₚ map_to_list s ∧
    StronglySorted Drink.id_le rows ∧
    Forall2 (λ row v, render (Drink.of_row row) = Ok v ∧ field "id" v = Some (JNum row.1))
      rows views.

(** ** Stored recipes that decode *)

(** Every stored recipe text decodes. *)
Definition all_decodable `{JsonModule} (s : Store) : Prop :=
  map_Forall (λ _ r, decodable r) s.

(** [json.loads] reads back every text [json.dumps] writes. *)
Definition round_trips `{JsonModule} : Prop :=
  ∀ v, json_loads (json_dumps v) = Some v.

(** ** Reading the outcome of a route *)

(** The [success] entry of a JSON response. *)
Definition success_flag (r : Response) : option json :=
  match body r with
  | JsonBody v => field "success" v
  | HtmlBody => None
  end.

(** The response has one of the status codes [codes]; it is a success body
    ([success: true]) when the status is 200 and the error envelope
    otherwise. *)
Definition answers (codes : list Z) (r : Response) : Prop :=
  status r ∈ codes ∧
  if decide (status r = 200) then success_flag r = Some (JBool true)
  else is_envelope r = true.

(** Closes a statement [answers codes r] about an evaluated response. *)
Ltac answers_by_evaluation := unfold answers; simpl; split; [set_solver|done].

(** Closes a decidable statement about concrete values by evaluation. *)
Ltac by_evaluation := apply (bool_decide_unpack _); vm_compute; exact I.

(** ** Facts about the model *)

Section ListFacts.
Context {A B : Type} (f : A → Result B).

Lemma comprehension_Ok_inv (l : list A) (ys : list B) :
  comprehension f l = Ok ys → Forall2 (λ x y, f x = Ok y) l ys.
Proof.
  revert ys. induction l as [|x l IH]; intros ys; simpl.
  - intros [= <-]. constructor.
  - destruct (f x) as [y|e] eqn:Hx; [|discriminate].
    destruct (comprehension f l) as [ys'|e]; [|discriminate].
    intros [= <-]. constructor; auto.
Qed.

Lemma comprehension_Ok (l : list A) :
  Forall (λ x, ∃ y, f x = Ok y) l → ∃ ys, comprehension f l = Ok ys.
Proof.
  induction 1 as [|x l [y Hy] _ [ys IH]]; simpl.
  - by eexists.
  - rewrite Hy, IH. by eexists.
Qed.

Lemma comprehension_Raise_inv (l : list A) (e : Exn) :
  comprehension f l = Raise e → ∃ x, x ∈ l ∧ f x = Raise e.
Proof.
  induction l as [|x l IH]; simpl; [discriminate|].
  destruct (f x) as [y|e'] eqn:Hx.
  - destruct (comprehension f l) as [ys|e'']; [discriminate|].
    intros [= <-]. destruct IH as (x' & ? & ?); [done|].
    exists x'. split; [by right | done].
  - intros [= <-]. exists x. split; [by left | done].
Qed.
End ListFacts.

#[global] Instance id_le_total : Total Drink.id_le.
Proof. intros a b. unfold Drink.id_le. lia. Qed.

#[global] Instance id_le_trans : Transitive Drink.id_le.
Proof. intros a b c. unfold Drink.id_le. lia. Qed.

Lemma order_by_id_perm (s : Store) : Drink.order_by_id s ≡ₚ map_to_list s.
Proof. apply merge_sort_Permutation. Qed.

Lemma order_by_id_sorted (s : Store) : StronglySorted Drink.id_le (Drink.order_by_id s).
Proof. apply StronglySorted_merge_sort; apply _. Qed.

Lemma elem_of_order_by_id (s : Store) (k : Z) (r : Row) :
  (k, r) ∈ Drink.order_by_id s ↔ s !! k = Some r.
Proof. rewrite order_by_id_perm. apply elem_of_map_to_list. Qed.

Lemma length_query_all (s : Store) :
  length (Drink.query_order_by_id_all s) = size s.
Proof.
  unfold Drink.query_order_by_id_all.
  rewrite length_fmap, order_by_id_perm. apply length_map_to_list.
Qed.

Lemma query_all_empty : Drink.query_order_by_id_all ∅ = [].
Proof.
  apply length_zero_iff_nil. apply Nat.le_0_r.
  rewrite length_query_all. by rewrite map_size_empty.
Qed.

Lemma one_or_none_None (s : Store) (k : Z) :
  s !! k = None → Drink.in_range k → Drink.query_filter_id_one_or_none k s = Ok None.
Proof.
  unfold Drink.query_filter_id_one_or_none. intros -> Hk. by rewrite decide_True.
Qed.

Lemma one_or_none_Raise (s : Store) (k : Z) :
  s !! k = None → ¬ Drink.in_range k →
  Drink.query_filter_id_one_or_none k s = Raise (PyError "OverflowError").
Proof.
  unfold Drink.query_filter_id_one_or_none. intros -> Hk. by rewrite decide_False.
Qed.

Lemma one_or_none_Some (s : Store) (k : Z) (r : Row) :
  s !! k = Some r →
  Drink.query_filter_id_one_or_none k s = Ok (Some (Drink.of_row (k, r))).
Proof. unfold Drink.query_filter_id_one_or_none. by intros ->. Qed.

Lemma foldr_max_ge (l : list Z) (k : Z) : k ∈ l → k ≤ foldr Z.max 0 l.
Proof.
  induction l as [|k' l IH]; simpl.
  - intros Hk. by apply elem_of_nil in Hk.
  - intros [->|Hk]%elem_of_cons; [lia|].
    specialize (IH Hk). lia.
Qed.

Lemma next_id_above (s : Store) (k : Z) (r : Row) :
  s !! k = Some r → k < Drink.next_id s.
Proof.
  intros Hk. unfold Drink.next_id.
  assert (k ≤ foldr Z.max 0 (map_to_list s).*1); [|lia].
  apply foldr_max_ge. apply list_elem_of_fmap.
  exists (k, r). split; [done|]. by apply elem_of_map_to_list.
Qed.

Lemma next_id_fresh (s : Store) : s !! Drink.next_id s = None.
Proof.
  destruct (s !! Drink.next_id s) as [r|] eqn:Hk; [|done].
  apply next_id_above in Hk. lia.
Qed.

(** ** The implementation of [json] reads back what it writes *)

Module PyJsonFacts.
Import PyJson.
#[local] Open Scope list_scope.

Lemma read_chars_escape_char (c : ascii) (w : list ascii) :
  read_chars (escape_char c ++ w) =
    match read_chars w with
    | Some (t, rest) => Some (c :: t, rest)
    | None => None
    end.
Proof. destruct c as [[] [] [] [] [] [] [] []]; reflexivity. Qed.

Lemma read_chars_escape (s rest : list ascii) :
  read_chars (escape s ++ quote :: rest) = Some (s, rest).
Proof.
  induction s as [|c s IH]; cbn [escape app].
  - cbn [read_chars]. by rewrite decide_True.
  - by rewrite <- app_assoc, read_chars_escape_char, IH.
Qed.

Lemma read_string_quoted (s : string) (rest : list ascii) :
  read_string (escape (chars s) ++ quote :: rest) = Some (s, rest).
Proof.
  unfold read_string. rewrite read_chars_escape. unfold chars.
  by rewrite string_of_list_ascii_of_string.
Qed.

Lemma number_char_not_space (c : ascii) : number_char c = true → is_space c = false.
Proof. destruct c as [[] [] [] [] [] [] [] []]; by vm_compute. Qed.

Lemma number_char_not_quote (c : ascii) : number_char c = true → c ≠ quote.
Proof. intros Hc ->. by vm_compute in Hc. Qed.

Lemma uint_chars (d : Decimal.uint) :
  Forall (λ c, number_char c = true) (chars (NilEmpty.string_of_uint d)).
Proof. induction d; simpl; constructor; done. Qed.

Lemma number_chars (n : Z) : Forall (λ c, number_char c = true) (number n).
Proof.
  unfold number, NilZero.string_of_int, NilZero.string_of_uint.
  destruct (Z.to_int n) as [d|d]; destruct d; simpl;
    repeat constructor; apply uint_chars.
Qed.

Lemma span_number_app (p rest : list ascii) :
  Forall (λ c, number_char c = true) p → ends_number rest →
  span_number (p ++ rest) = (p, rest).
Proof.
  intros Hp Hrest. induction Hp as [|c p Hc _ IH]; cbn [app span_number].
  - destruct rest as [|c rest]; [done|]. cbn [ends_number span_number] in *.
    by rewrite Hrest.
  - by rewrite Hc, IH.
Qed.

Lemma int_of_string_to_int (n : Z) :
  NilZero.int_of_string (NilZero.string_of_int (Z.to_int n)) = Some (Z.to_int n).
Proof.
  apply NilZero.isi; destruct n as [|p|p]; simpl; try discriminate.
  - intros [= Hp]. by apply Unsigned.to_uint_nonnil in Hp.
  - intros [= Hp]. by apply Unsigned.to_uint_nonnil in Hp.
Qed.

Lemma read_number_number (n : Z) (rest : list ascii) :
  ends_number rest → read_number (number n ++ rest) = Some (JNum n, rest).
Proof.
  intros Hrest. unfold read_number.
  rewrite (span_number_app _ _ (number_chars n) Hrest).
  unfold number at 1, chars at 1.
  rewrite string_of_list_ascii_of_string, int_of_string_to_int, DecimalZ.of_to.
  cbn zeta. rewrite decide_True; [done | by left].
Qed.

Lemma number_head (n : Z) : ∃ c w, number n = c :: w ∧ number_char c = true.
Proof.
  pose proof (number_chars n) as Hall. destruct (number n) as [|c w] eqn:Hn.
  - exfalso. unfold number, NilZero.string_of_int, NilZero.string_of_uint in Hn.
    destruct (Z.to_int n) as [d|d]; destruct d; discriminate.
  - exists c, w. split; [done|]. by apply Forall_cons_1 in Hall as [? _].
Qed.

Lemma write_starts_value (v : json) : starts_value (write v).
Proof.
  destruct v as [|[]|n|s|l|kvs]; try (by do 2 eexists).
  destruct (number_head n) as (c & w & Hn & Hc).
  exists c, w. split; [done|]. split; [by apply number_char_not_space|].
  split; intros ->; by vm_compute in Hc.
Qed.

Lemma skip_ws_starts_value (s rest : list ascii) :
  starts_value s → skip_ws (s ++ rest) = s ++ rest.
Proof. intros (c & w & -> & Hc & _). cbn [app skip_ws]. by rewrite Hc. Qed.

Lemma reads_back_null : reads_back JNull.
Proof.
  intros [|fuel] s rest Hfuel Hrest Hs; [simpl in Hfuel; lia|].
  cbn [read_value]. rewrite Hs. reflexivity.
Qed.

Lemma reads_back_bool (b : bool) : reads_back (JBool b).
Proof.
  intros [|fuel] s rest Hfuel Hrest Hs; [simpl in Hfuel; lia|].
  cbn [read_value]. rewrite Hs. destruct b; reflexivity.
Qed.

Lemma reads_back_num (n : Z) : reads_back (JNum n).
Proof.
  intros [|fuel] s rest Hfuel Hrest Hs; [simpl in Hfuel; lia|].
  cbn [read_value]. rewrite Hs. cbn [write].
  destruct (number_head n) as (c & w & Hn & Hc).
  rewrite Hn. cbn [app]. rewrite Hc.
  rewrite app_comm_cons, <- Hn. by apply read_number_number.
Qed.

Lemma reads_back_str (t : string) : reads_back (JStr t).
Proof.
  intros [|fuel] s rest Hfuel Hrest Hs; [simpl in Hfuel; lia|].
  cbn [read_value]. rewrite Hs. cbn [write quoted app].
  change (number_char quote) with false. cbn match.
  rewrite decide_True by done.
  rewrite <- app_assoc. cbn [app]. by rewrite read_string_quoted.
Qed.

Lemma join_cons_cons (x y : list ascii) (items : list (list ascii)) :
  join (x :: y :: items) = x ++ ","%char :: " "%char :: join (y :: items).
Proof. reflexivity. Qed.

Lemma join_starts_value (x : list ascii) (items : list (list ascii)) :
  starts_value x → starts_value (join (x :: items)).
Proof.
  intros (c & w & -> & Hc). destruct items as [|y items].
  - by exists c, w.
  - rewrite join_cons_cons. by exists c, (w ++ ","%char :: " "%char :: join (y :: items)).
Qed.

Lemma expect_close_starts_value (close : ascii) (s rest : list ascii) :
  close = "]"%char ∨ close = "}"%char →
  starts_value s → expect [close] (s ++ rest) = None.
Proof.
  intros Hclose (c & w & -> & _ & Hc1 & Hc2). cbn [app expect].
  rewrite decide_False; [done|]. destruct Hclose as [-> | ->]; congruence.
Qed.

Lemma read_elements_join (l : list json) :
  l ≠ [] → Forall reads_back l →
  ∀ fuel s rest,
    (1 + length (join (map write l)) < fuel)%nat → ends_number rest →
    skip_ws s = join (map write l) ++ "]"%char :: rest →
    read_elements fuel s = Some (l, rest).
Proof.
  induction l as [|v l IH]; [done|]. intros _ Hall.
  apply Forall_cons_1 in Hall as [Hv Hl].
  intros [|fuel] s rest Hfuel Hrest Hs; [lia|]. cbn [read_elements].
  destruct l as [|v' l'].
  - cbn [map join] in *. rewrite (Hv fuel s ("]"%char :: rest)); [|lia|done|done].
    reflexivity.
  - cbn [map] in *. rewrite join_cons_cons in *. rewrite length_app in Hfuel.
    cbn [length] in Hfuel.
    rewrite <- app_assoc in Hs. cbn [app] in Hs.
    erewrite Hv; [|lia| |exact Hs]; [|done].
    cbn [skip_ws]. change (is_space ","%char) with false. cbn match.
    rewrite decide_True by done.
    rewrite (IH ltac:(done) Hl fuel _ rest); [done|cbn [map]; lia|done|].
    cbn [skip_ws]. change (is_space " "%char) with true. cbn match.
    apply skip_ws_starts_value, join_starts_value, write_starts_value.
Qed.

Lemma entry_app (kv : string * json) (rest : list ascii) :
  entry kv ++ rest =
    quote :: escape (chars kv.1) ++ quote :: ":"%char :: " "%char :: write kv.2 ++ rest.
Proof.
  unfold entry, quoted. cbn [app chars list_ascii_of_string].
  by rewrite <- !app_assoc.
Qed.

Lemma entry_length (kv : string * json) : (length (write kv.2) < length (entry kv))%nat.
Proof.
  unfold entry, quoted. cbn [chars list_ascii_of_string length].
  rewrite !length_app. cbn [length]. lia.
Qed.

Lemma entry_starts_value (kv : string * json) : starts_value (entry kv).
Proof. by do 2 eexists. Qed.

Lemma read_members_join (kvs : list (string * json)) :
  kvs ≠ [] → Forall (λ kv, reads_back kv.2) kvs →
  ∀ fuel s rest,
    (1 + length (join (map entry kvs)) < fuel)%nat → ends_number rest →
    skip_ws s = join (map entry kvs) ++ "}"%char :: rest →
    read_members fuel s = Some (kvs, rest).
Proof.
  induction kvs as [|[k v] kvs IH]; [done|]. intros _ Hall.
  apply Forall_cons_1 in Hall as [Hv Hl]. simpl in Hv.
  intros [|fuel] s rest Hfuel Hrest Hs; [lia|]. cbn [read_members].
  pose proof (entry_length (k, v)) as Hlen. cbn [snd] in Hlen.
  destruct kvs as [|kv' kvs'].
  - cbn [map join] in *. rewrite Hs, entry_app. cbn [expect].
    rewrite decide_True by done. rewrite read_string_quoted.
    cbn [skip_ws expect chars list_ascii_of_string].
    change (is_space ":"%char) with false. cbn match.
    rewrite decide_True by done. cbn [fst snd].
    erewrite Hv; [|lia| |]; cycle 1.
    { instantiate (1 := "}"%char :: rest). done. }
    { cbn [skip_ws]. change (is_space " "%char) with true. cbn match.
      apply skip_ws_starts_value, write_starts_value. }
    reflexivity.
  - cbn [map] in *. rewrite join_cons_cons in *. rewrite length_app in Hfuel.
    cbn [length] in Hfuel.
    rewrite <- app_assoc in Hs. cbn [app] in Hs.
    rewrite Hs, entry_app. cbn [expect].
    rewrite decide_True by done. rewrite read_string_quoted.
    cbn [skip_ws expect chars list_ascii_of_string].
    change (is_space ":"%char) with false. cbn match.
    rewrite decide_True by done. cbn [fst snd].
    erewrite Hv; [|lia| |]; cycle 1.
    { instantiate (1 := ","%char :: " "%char :: join (entry kv' :: map entry kvs')
                          ++ "}"%char :: rest). done. }
    { cbn [skip_ws]. change (is_space " "%char) with true. cbn match.
      apply skip_ws_starts_value, write_starts_value. }
    cbn [skip_ws]. change (is_space ","%char) with false. cbn match.
    rewrite decide_True by done.
    rewrite (IH ltac:(done) Hl fuel _ rest); [done|cbn [map]; lia|done|].
    cbn [skip_ws]. change (is_space " "%char) with true. cbn match.
    apply skip_ws_starts_value, join_starts_value, entry_starts_value.
Qed.

Lemma reads_back_arr (l : list json) : Forall reads_back l → reads_back (JArr l).
Proof.
  intros Hall [|fuel] s rest Hfuel Hrest Hs; [simpl in Hfuel; lia|].
  cbn [read_value]. rewrite Hs. cbn [write chars list_ascii_of_string app] in *.
  cbn [length] in Hfuel. rewrite length_app in Hfuel. cbn [length] in Hfuel.
  change (number_char "["%char) with false. cbn match.
  rewrite decide_False by done. rewrite decide_True by done.
  rewrite <- app_assoc. cbn [app].
  destruct l as [|v l]; [reflexivity|].
  rewrite skip_ws_starts_value by apply join_starts_value, write_starts_value.
  rewrite (expect_close_starts_value "]"%char)
    by (first [by left | apply join_starts_value, write_starts_value]).
  rewrite (read_elements_join (v :: l) ltac:(done) Hall fuel _ rest); [done|lia|done|].
  apply skip_ws_starts_value, join_starts_value, write_starts_value.
Qed.

Lemma reads_back_obj (kvs : list (string * json)) :
  Forall (λ kv, reads_back kv.2) kvs → reads_back (JObj kvs).
Proof.
  intros Hall [|fuel] s rest Hfuel Hrest Hs; [simpl in Hfuel; lia|].
  cbn [read_value]. rewrite Hs. cbn [write] in *. fold entry in *.
  cbn [chars list_ascii_of_string app] in *. cbn [length] in Hfuel. rewrite length_app in Hfuel.
  cbn [length] in Hfuel.
  change (number_char "{"%char) with false. cbn match.
  rewrite !decide_False by done. rewrite decide_True by done.
  rewrite <- app_assoc. cbn [app].
  destruct kvs as [|kv kvs]; [reflexivity|].
  rewrite skip_ws_starts_value by apply join_starts_value, entry_starts_value.
  rewrite (expect_close_starts_value "}"%char)
    by (first [by right | apply join_starts_value, entry_starts_value]).
  rewrite (read_members_join (kv :: kvs) ltac:(done) Hall fuel _ rest); [done|lia|done|].
  apply skip_ws_starts_value, join_starts_value, entry_starts_value.
Qed.

Lemma reads_back_all (v : json) : reads_back v.
Proof.
  induction v using json_nested_ind;
    auto using reads_back_null, reads_back_bool, reads_back_num, reads_back_str,
      reads_back_arr, reads_back_obj.
Qed.

Theorem loads_dumps (v : json) : loads (dumps v) = Some v.
Proof.
  unfold loads, dumps. rewrite list_ascii_of_string_of_list_ascii.
  rewrite (reads_back_all v (S (length (write v))) (write v) []); [done|lia|done|].
  pose proof (skip_ws_starts_value (write v) [] (write_starts_value v)) as Hv.
  by rewrite app_nil_r in *.
Qed.
End PyJsonFacts.

(** ** The views of stored rows *)

Section ViewFacts.
Context `{JsonModule}.

Lemma short_Ok_id (d : Drink.t) (v : json) :
  Drink.short d = Ok v → field "id" v = Some (Drink.json_of_id (Drink.id d)).
Proof.
  unfold Drink.short.
  destruct (json_loads (Drink.recipe d)) as [[| | | |l|]|]; try discriminate.
  destruct (comprehension Drink.short_entry l); [|discriminate].
  by intros [= <-].
Qed.

Lemma short_entry_Raise (r : json) (e : Exn) :
  Drink.short_entry r = Raise e → ∃ name, e = PyError name.
Proof.
  unfold Drink.short_entry, py_getitem.
  destruct r as [| | | | |kvs]; try (intros [= <-]; by eexists).
  destruct (dict_lookup "color" kvs); [|intros [= <-]; by eexists].
  destruct (dict_lookup "parts" kvs); [discriminate|intros [= <-]; by eexists].
Qed.

Lemma short_Raise (d : Drink.t) (e : Exn) :
  Drink.short d = Raise e → ∃ name, e = PyError name.
Proof.
  unfold Drink.short.
  destruct (json_loads (Drink.recipe d)) as [[| | | |l|]|];
    try (intros [= <-]; by eexists).
  destruct (comprehension Drink.short_entry l) as [|e'] eqn:Hl; [discriminate|].
  intros [= <-]. apply comprehension_Raise_inv in Hl as (r & _ & Hr).
  by apply short_entry_Raise in Hr.
Qed.

Lemma long_Raise (d : Drink.t) (e : Exn) :
  Drink.long d = Raise e → ∃ name, e = PyError name.
Proof.
  unfold Drink.long. destruct (json_loads (Drink.recipe d)); [discriminate|].
  intros [= <-]. by eexists.
Qed.

Lemma long_of_row (k : Z) (r : Row) (v : json) :
  json_loads (row_recipe r) = Some v →
  Drink.long (Drink.of_row (k, r)) =
    Ok (JObj [("id", JNum k); ("title", JStr (row_title r)); ("recipe", v)]).
Proof. unfold Drink.long, Drink.of_row. simpl. by intros ->. Qed.

(** What [GET /drinks] answers, by cases on the store. *)
Lemma retrieve_drinks_cases (s : Store) :
  (s = ∅ ∧ retrieve_drinks s = (abort 404, s)) ∨
  (s ≠ ∅ ∧ ∃ views,
     retrieve_drinks s =
       (Ok (jsonify (JObj [("success", JBool true); ("drinks", JArr views)])), s) ∧
     Forall2 (λ row v, Drink.short (Drink.of_row row) = Ok v) (Drink.order_by_id s) views) ∨
  (s ≠ ∅ ∧ ∃ name, retrieve_drinks s = (Raise (PyError name), s)).
Proof.
  unfold retrieve_drinks.
  destruct (Nat.eqb_spec (length (Drink.query_order_by_id_all s)) 0) as [Hlen|Hlen];
    rewrite length_query_all in Hlen.
  - left. by apply map_size_empty_inv in Hlen.
  - right. assert (s ≠ ∅) by (intros ->; by rewrite map_size_empty in Hlen).
    destruct (comprehension Drink.short (Drink.query_order_by_id_all s))
      as [views|e] eqn:Hv.
    + left. split; [done|]. exists views. split; [done|].
      apply comprehension_Ok_inv in Hv. unfold Drink.query_order_by_id_all in Hv.
      by apply Forall2_fmap_l in Hv.
    + right. split; [done|].
      apply comprehension_Raise_inv in Hv as (d & _ & Hd).
      apply short_Raise in Hd as [name ->]. by exists name.
Qed.

End ViewFacts.

Section RenderFacts.
Context `{JsonModule}.

Lemma long_Ok_inv (d : Drink.t) (v : json) :
  Drink.long d = Ok v →
  ∃ r, json_loads (Drink.recipe d) = Some r ∧
       v = JObj [("id", Drink.json_of_id (Drink.id d)); ("title", Drink.title d); ("recipe", r)].
Proof.
  unfold Drink.long. destruct (json_loads (Drink.recipe d)) as [r|]; [|discriminate].
  intros [= <-]. by exists r.
Qed.

Lemma long_of_row_Ok (k : Z) (r : Row) :
  decodable r → ∃ v, Drink.long (Drink.of_row (k, r)) = Ok v.
Proof. intros [v Hv]. rewrite (long_of_row k r v Hv). by eexists. Qed.

Lemma short_entry_Ok (e : json) :
  has_color_and_parts e → ∃ v, Drink.short_entry e = Ok v.
Proof.
  intros (kvs & c & p & -> & Hc & Hp). unfold Drink.short_entry. simpl.
  rewrite Hc, Hp. by eexists.
Qed.

Lemma short_of_row_Ok (k : Z) (r : Row) :
  ingredient_list r → ∃ v, Drink.short (Drink.of_row (k, r)) = Ok v.
Proof.
  intros (l & Hl & Hall). unfold Drink.short. simpl. rewrite Hl.
  destruct (comprehension_Ok Drink.short_entry l) as [entries ->].
  - eapply Forall_impl; [exact Hall|]. apply short_entry_Ok.
  - by eexists.
Qed.

Lemma all_rows_render (render : Drink.t → Result json) (P : Row → Prop) (s : Store) :
  (∀ k r, P r → ∃ v, render (Drink.of_row (k, r)) = Ok v) →
  map_Forall (λ _ r, P r) s →
  ∃ views, comprehension render (Drink.query_order_by_id_all s) = Ok views.
Proof.
  intros Hrender Hall. apply comprehension_Ok. unfold Drink.query_order_by_id_all.
  apply Forall_fmap, Forall_forall. intros [k r] Hkr%elem_of_order_by_id.
  apply Hrender. by apply (Hall k r).
Qed.

Lemma rendered_lists_all_by_id (render : Drink.t → Result json) (s : Store)
    (views : list json) :
  (∀ d v, render d = Ok v → field "id" v = Some (Drink.json_of_id (Drink.id d))) →
  comprehension render (Drink.query_order_by_id_all s) = Ok views →
  lists_all_by_id render s views.
Proof.
  intros Hid Hviews. exists (Drink.order_by_id s).
  split; [apply order_by_id_perm|]. split; [apply order_by_id_sorted|].
  apply comprehension_Ok_inv in Hviews. unfold Drink.query_order_by_id_all in Hviews.
  apply Forall2_fmap_l in Hviews. eapply Forall2_impl; [exact Hviews|].
  intros [k r] v Hv. simpl in *. split; [done|]. by apply Hid in Hv.
Qed.

Lemma long_Ok_id (d : Drink.t) (v : json) :
  Drink.long d = Ok v → field "id" v = Some (Drink.json_of_id (Drink.id d)).
Proof. intros (r & _ & ->)%long_Ok_inv. reflexivity. Qed.

End RenderFacts.

Lemma query_all_nonempty (s : Store) :
  s ≠ ∅ → (length (Drink.query_order_by_id_all s) =? 0)%nat = false.
Proof.
  intros Hne. apply Nat.eqb_neq. rewrite length_query_all.
  by intros ?%map_size_empty_inv.
Qed.

Lemma retrieve_drinks_lists_all `{JsonModule} (s : Store) :
  s ≠ ∅ →
  map_Forall (λ _ r, ingredient_list r) s →
  ∃ views,
    retrieve_drinks s =
      (Ok (jsonify (JObj [("success", JBool true); ("drinks", JArr views)])), s) ∧
    lists_all_by_id Drink.short s views.
Proof.
  intros Hne Hall. unfold retrieve_drinks. rewrite (query_all_nonempty s Hne).
  destruct (all_rows_render Drink.short ingredient_list s short_of_row_Ok Hall)
    as [views Hviews].
  exists views. rewrite Hviews. split; [reflexivity|].
  apply rendered_lists_all_by_id; [apply short_Ok_id | done].
Qed.

Lemma get_drinks_detail_lists_all `{JsonModule} (s : Store) (jwt_payload : json) :
  s ≠ ∅ →
  map_Forall (λ _ r, decodable r) s →
  ∃ views,
    get_drinks_detail jwt_payload s =
      (Ok (jsonify (JObj [("success", JBool true); ("drinks", JArr views)])), s) ∧
    lists_all_by_id Drink.long s views.
Proof.
  intros Hne Hall. unfold get_drinks_detail. rewrite (query_all_nonempty s Hne).
  destruct (all_rows_render Drink.long decodable s long_of_row_Ok Hall)
    as [views Hviews].
  exists views. rewrite Hviews. split; [reflexivity|].
  apply rendered_lists_all_by_id; [apply long_Ok_id | done].
Qed.

(** ** The routes on a body that is an object *)

Lemma modify_drink_existing `{JsonModule} `{TitleColumn}
    (s : Store) (jwt_payload : json) (k : Z) (row : Row) (kvs : list (string * json)) :
  s !! k = Some row →
  modify_drink jwt_payload k (JsonRequest (JObj kvs)) s =
    match title_text (patched_title row kvs) with
    | Some ttl =>
        if decide (Drink.title_taken ttl (Some k) s) then (abort 422, s)
        else
          let s' := <[k := mkRow ttl (patched_recipe row kvs)]> s in
          match json_loads (patched_recipe row kvs) with
          | Some v =>
              (Ok (jsonify (JObj [("success", JBool true);
                                  ("drinks", JArr [JObj [("id", JNum k); ("title", JStr ttl);
                                                         ("recipe", v)]])])), s')
          | None => (abort 422, s')
          end
    | None => (abort 422, s)
    end.
Proof.
  intros Hk. unfold modify_drink. rewrite (one_or_none_Some s k row Hk).
  unfold patched_title, patched_recipe, bind, lift, ret, Drink.update, Drink.long.
  simpl.
  destruct (truthy (default JNull (dict_lookup "title" kvs)));
    destruct (truthy (default JNull (dict_lookup "recipe" kvs))); simpl;
    (destruct (title_text _) as [ttl|]; [|reflexivity]);
    (destruct (decide (Drink.title_taken _ _ _)); [reflexivity|]);
    rewrite Hk; simpl; destruct (json_loads _); reflexivity.
Qed.

Lemma create_drink_object `{JsonModule} `{TitleColumn}
    (s : Store) (jwt_payload : json) (kvs : list (string * json)) :
  create_drink jwt_payload (JsonRequest (JObj kvs)) s =
    let text := json_dumps (default JNull (dict_lookup "recipe" kvs)) in
    match title_text (default JNull (dict_lookup "title" kvs)) with
    | Some ttl =>
        if decide (Drink.title_taken ttl None s) then (abort 422, s)
        else
          let k := Drink.next_id s in
          let s' := <[k := mkRow ttl text]> s in
          match json_loads text with
          | Some v =>
              (Ok (jsonify (JObj [("success", JBool true);
                                  ("drinks", JArr [JObj [("id", JNum k); ("title", JStr ttl);
                                                         ("recipe", v)]])])), s')
          | None => (abort 422, s')
          end
    | None => (abort 422, s)
    end.
Proof.
  unfold create_drink, try_except, bind, lift, ret, Drink.insert, Drink.long. simpl.
  destruct (title_text _) as [ttl|]; [|reflexivity].
  destruct (decide (Drink.title_taken ttl None s)); [reflexivity|].
  simpl. destruct (json_loads _); reflexivity.
Qed.

(** A PATCH or DELETE of an id that cannot be bound. *)
Lemma unbound_id_is_422 `{JsonModule} `{TitleColumn}
    (s : Store) (jwt_payload : json) (k : Z) (request : Request) :
  s !! k = None → ¬ Drink.in_range k →
  modify_drink jwt_payload k request s = (abort 422, s) ∧
  delete_drink jwt_payload k s = (abort 422, s).
Proof.
  intros Hk Hout. unfold modify_drink, delete_drink.
  by rewrite (one_or_none_Raise s k Hk Hout).
Qed.

(** A PATCH or DELETE of an id that can be bound and that no row has. *)
Lemma unknown_id_is_404 `{JsonModule} `{TitleColumn}
    (s : Store) (jwt_payload : json) (k : Z) (request : Request) :
  s !! k = None → Drink.in_range k →
  modify_drink jwt_payload k request s = (abort 404, s) ∧
  delete_drink jwt_payload k s = (abort 404, s).
Proof.
  intros Hk Hin. unfold modify_drink, delete_drink.
  by rewrite (one_or_none_None s k Hk Hin).
Qed.

(** ** Stored recipes stay decodable *)

Section Invariant.
Context `{JsonModule} `{TitleColumn}.
Hypothesis Hjson : round_trips.

Lemma dispatch_request_store (view : M Response) (s : Store) :
  (dispatch_request view s).2 = (view s).2.
Proof. unfold dispatch_request. by destruct (view s) as [[?|?] ?]. Qed.

Lemma retrieve_drinks_store (s : Store) : (retrieve_drinks s).2 = s.
Proof. unfold retrieve_drinks. by repeat case_match. Qed.

Lemma get_drinks_detail_store (jwt_payload : json) (s : Store) :
  (get_drinks_detail jwt_payload s).2 = s.
Proof. unfold get_drinks_detail. by repeat case_match. Qed.

Lemma insert_decodable (s : Store) (k : Z) (ttl text : string) :
  is_Some (json_loads text) → all_decodable s →
  all_decodable (<[k := mkRow ttl text]> s).
Proof. intros Htext Hs. by apply map_Forall_insert_2. Qed.

Lemma create_drink_decodable (jwt_payload : json) (request : Request) (s : Store) :
  all_decodable s → all_decodable (create_drink jwt_payload request s).2.
Proof.
  intros Hs. destruct request as [| |[| | | | |kvs]]; try done.
  rewrite create_drink_object. simpl.
  destruct (title_text _) as [ttl|]; [|done].
  destruct (decide (Drink.title_taken ttl None s)); [done|].
  rewrite Hjson. simpl. apply insert_decodable; [|done]. by rewrite Hjson.
Qed.

Lemma patched_recipe_decodable (row : Row) (kvs : list (string * json)) :
  decodable row → is_Some (json_loads (patched_recipe row kvs)).
Proof.
  intros Hrow. unfold patched_recipe.
  destruct (truthy _); [by rewrite Hjson | done].
Qed.

Lemma modify_drink_decodable (jwt_payload : json) (drink_id : Z) (request : Request)
    (s : Store) :
  all_decodable s → all_decodable (modify_drink jwt_payload drink_id request s).2.
Proof.
  intros Hs. destruct (s !! drink_id) as [row|] eqn:Hk.
  - destruct request as [| |[| | | | |kvs]];
      try (unfold modify_drink; rewrite (one_or_none_Some s drink_id row Hk); done).
    rewrite (modify_drink_existing s jwt_payload drink_id row kvs Hk).
    pose proof (patched_recipe_decodable row kvs (Hs drink_id row Hk)) as [v Hv].
    destruct (title_text _) as [ttl|]; [|done].
    destruct (decide _); [done|]. simpl. rewrite Hv. simpl.
    apply insert_decodable; [by rewrite Hv | done].
  - destruct (decide (Drink.in_range drink_id)) as [Hin|Hout].
    + by rewrite (proj1 (unknown_id_is_404 s jwt_payload drink_id request Hk Hin)).
    + by rewrite (proj1 (unbound_id_is_422 s jwt_payload drink_id request Hk Hout)).
Qed.

Lemma delete_drink_decodable (jwt_payload : json) (drink_id : Z) (s : Store) :
  all_decodable s → all_decodable (delete_drink jwt_payload drink_id s).2.
Proof.
  intros Hs. unfold delete_drink. destruct (s !! drink_id) as [row|] eqn:Hk.
  - rewrite (one_or_none_Some s drink_id row Hk). simpl. by apply map_Forall_delete.
  - destruct (decide (Drink.in_range drink_id)) as [Hin|Hout].
    + by rewrite (one_or_none_None s drink_id Hk Hin).
    + by rewrite (one_or_none_Raise s drink_id Hk Hout).
Qed.

Lemma serve_one_decodable (c : Call) (s : Store) :
  all_decodable s → all_decodable (serve_one c s).2.
Proof.
  intros Hs. destruct c; simpl; rewrite ?dispatch_request_store.
  - by rewrite retrieve_drinks_store.
  - by rewrite get_drinks_detail_store.
  - by apply create_drink_decodable.
  - by apply modify_drink_decodable.
  - by apply delete_drink_decodable.
  - done.
Qed.

Lemma serve_decodable (calls : list Call) (s : Store) :
  all_decodable s → all_decodable (serve calls s).2.
Proof.
  revert s. induction calls as [|c calls IH]; intros s Hs; simpl; [done|].
  pose proof (serve_one_decodable c s Hs) as Hc.
  destruct (serve_one c s) as [r s']. specialize (IH s' Hc).
  by destruct (serve calls s') as [rs s''].
Qed.

End Invariant.

(** X1: on a store whose recipe texts decode, after any sequence of
    requests every stored recipe text decodes, so the following
    GET /drinks-detail answers 200 or 404, never 500: the texts the handlers
    store are written by [json.dumps]. *)
Theorem detail_never_fails_after_requests `{JsonModule} `{TitleColumn}
    (calls : list Call) (s : Store) (jwt_payload : json) :
  round_trips →
  all_decodable s →
  all_decodable (serve calls s).2 ∧
  status (dispatch_request (get_drinks_detail jwt_payload) (serve calls s).2).1 ∈ [200; 404].
Proof.
  intros Hjson Hs.
  pose proof (serve_decodable Hjson calls s Hs) as Hall.
  split; [done|].
  destruct (decide ((serve calls s).2 = ∅)) as [->|Hne].
  - unfold dispatch_request, get_drinks_detail. rewrite query_all_empty.
    simpl. set_solver.
  - destruct (get_drinks_detail_lists_all _ jwt_payload Hne Hall) as (views & Hv & _).
    unfold dispatch_request. rewrite Hv. simpl. set_solver.
Qed.

Lemma detail_never_fails_after_requests_witness :
  let calls :=
    [POST_drinks JNull (JsonRequest (JObj [("title", JStr "Mocha"); ("recipe", latte_recipe)]));
     POST_drinks JNull (JsonRequest (JObj [("title", JStr "Tap water")]));
     PATCH_drinks JNull 3 (JsonRequest (JObj [("recipe", latte_recipe)]));
     DELETE_drinks JNull 7] in
  all_decodable (serve calls two_drinks).2 ∧
  status (dispatch_request (get_drinks_detail JNull) (serve calls two_drinks).2).1 ∈ [200; 404].
Proof.
  intros calls.
  apply (detail_never_fails_after_requests calls two_drinks JNull).
  - exact PyJsonFacts.loads_dumps.
  - by_evaluation.
Defined.

(** ** Error responses *)

(** X2: an HTTP error whose status code has a handler in api.py is answered
    with that status and the envelope
    [{success: false, error: <status>, message: <string>}]. *)
Lemma registered_codes_get_envelope (err : HTTPException) :
  code err ∈ [400; 401; 403; 404; 405; 422; 500] →
  status (handle_user_exception (Http err)) = code err ∧
  is_envelope (handle_user_exception (Http err)) = true.
Proof.
  destruct err as [c dsc]. simpl. intros Hc.
  repeat (apply elem_of_cons in Hc as [->|Hc]); [..|by apply elem_of_nil in Hc];
    unfold handle_user_exception, bad_request, unauthorized, forbidden; simpl;
    destruct (code_and_description dsc) as [[? ?]|]; split; reflexivity.
Qed.

(** X3: a code/description pair carried by a 400, 401 or 403 error is the
    message of the envelope, as ["<code> : <description>"]. *)
Lemma structured_description_is_message (err : HTTPException) (c dsc : string) :
  code err ∈ [400; 401; 403] →
  code_and_description (description err) = Some (c, dsc) →
  handle_user_exception (Http err) =
    mkResponse (code err) (JsonBody (envelope (code err) (c ++ " : " ++ dsc))).
Proof.
  destruct err as [n d]. simpl. intros Hc Hd.
  repeat (apply elem_of_cons in Hc as [->|Hc]); [..|by apply elem_of_nil in Hc];
    unfold handle_user_exception, bad_request, unauthorized, forbidden; simpl;
    rewrite Hd; reflexivity.
Qed.

Lemma registered_codes_get_envelope_witness :
  status (handle_user_exception (Http (mkHTTPException 405 DefaultDescription))) = 405 ∧
  is_envelope (handle_user_exception (Http (mkHTTPException 405 DefaultDescription))) = true.
Proof.
  apply (registered_codes_get_envelope (mkHTTPException 405 DefaultDescription)).
  simpl. set_solver.
Defined.

Lemma structured_description_is_message_witness :
  handle_user_exception
    (Http (mkHTTPException 403
             (DictDescription [("code", "unauthorized");
                               ("description", "Permission not found.")]))) =
    mkResponse 403
      (JsonBody (envelope 403 ("unauthorized" ++ " : " ++ "Permission not found."))).
Proof.
  apply (structured_description_is_message
           (mkHTTPException 403
              (DictDescription [("code", "unauthorized");
                                ("description", "Permission not found.")]))).
  - simpl. set_solver.
  - reflexivity.
Defined.

(** C1: every error response is the envelope
    [{success: false, error: <status>, message: <string>}], errors raised by
    the token verifier included.  The code does not do this for an
    [AuthError]: [handle_auth_error] sends the error's own code/description
    dict as the body, with no [success], [error] or [message] entry. *)
Theorem C1_auth_error_is_sent_raw (ex : AuthError) (c dsc : string) (st : Z) :
  handle_user_exception (Auth ex) = mkResponse (status_code ex) (JsonBody (error ex)) ∧
  handle_user_exception
    (Auth (mkAuthError (JObj [("code", JStr c); ("description", JStr dsc)]) st)) =
    mkResponse st (JsonBody (JObj [("code", JStr c); ("description", JStr dsc)])) ∧
  is_envelope
    (handle_user_exception
       (Auth (mkAuthError (JObj [("code", JStr c); ("description", JStr dsc)]) st))) = false.
Proof.
  unfold handle_user_exception, handle_auth_error, is_envelope, with_status, jsonify.
  simpl. repeat split; reflexivity.
Qed.

(** ** Listing an empty store *)

(** C2: in every store with zero drink records, GET /drinks and
    GET /drinks-detail both answer 404 with the error envelope of that
    status; neither answers 200 with an empty [drinks] list.  The store is
    left as it was. *)
Theorem C2_empty_store_lists_404 `{JsonModule} (s : Store) (jwt_payload : json) :
  size s = 0%nat →
  dispatch_request retrieve_drinks s =
    (mkResponse 404 (JsonBody (envelope 404 "resource not found")), s) ∧
  dispatch_request (get_drinks_detail jwt_payload) s =
    (mkResponse 404 (JsonBody (envelope 404 "resource not found")), s).
Proof.
  intros ->%map_size_empty_inv.
  unfold dispatch_request, retrieve_drinks, get_drinks_detail.
  rewrite query_all_empty. simpl. split; reflexivity.
Qed.

Lemma C2_empty_store_lists_404_witness :
  size (∅ : Store) = 0%nat ∧
  dispatch_request retrieve_drinks ∅ =
    (mkResponse 404 (JsonBody (envelope 404 "resource not found")), ∅) ∧
  dispatch_request
    (get_drinks_detail (JObj [("permissions", JArr [JStr "get:drinks-detail"])])) ∅ =
    (mkResponse 404 (JsonBody (envelope 404 "resource not found")), ∅).
Proof.
  split; [reflexivity|].
  apply (C2_empty_store_lists_404 ∅). reflexivity.
Defined.

(** ** Updating a record *)

(** C3, as amended: for a PATCH /drinks/{id} request whose id matches a
    stored record and whose body is a JSON object, the new title of the
    record is the title of the body when that is truthy and the stored
    title otherwise, and the new recipe text is the text of the recipe of
    the body when that is truthy and the stored text otherwise
    ([patched_title], [patched_recipe]).  When the database keeps the new
    title (a string is always kept, as it is) and no other record holds it,
    the record is stored with the new title and the new recipe text; the
    response is then 200 with the updated record in long form when the new
    recipe text decodes, and 422 when it does not.  When the database
    refuses the new title or another record holds it, the response is 422
    and the store is unchanged. *)
Theorem C3_patch_applies_truthy_fields `{JsonModule} `{TitleColumn}
    (s : Store) (jwt_payload : json) (drink_id : Z) (row : Row)
    (kvs : list (string * json)) :
  s !! drink_id = Some row →
  (∀ ttl, patched_title row kvs = JStr ttl →
          title_text (patched_title row kvs) = Some ttl) ∧
  (∀ ttl,
     title_text (patched_title row kvs) = Some ttl →
     ¬ Drink.title_taken ttl (Some drink_id) s →
     (dispatch_request (modify_drink jwt_payload drink_id (JsonRequest (JObj kvs))) s).2 =
       <[drink_id := mkRow ttl (patched_recipe row kvs)]> s ∧
     (∀ v, json_loads (patched_recipe row kvs) = Some v →
        (dispatch_request (modify_drink jwt_payload drink_id (JsonRequest (JObj kvs))) s).1 =
          mkResponse 200
            (JsonBody (JObj [("success", JBool true);
                             ("drinks", JArr [JObj [("id", JNum drink_id);
                                                    ("title", JStr ttl);
                                                    ("recipe", v)]])]))) ∧
     (json_loads (patched_recipe row kvs) = None →
        (dispatch_request (modify_drink jwt_payload drink_id (JsonRequest (JObj kvs))) s).1 =
          mkResponse 422 (JsonBody (envelope 422 "unprocessable")))) ∧
  ((title_text (patched_title row kvs) = None ∨
    ∃ ttl, title_text (patched_title row kvs) = Some ttl ∧
           Drink.title_taken ttl (Some drink_id) s) →
   dispatch_request (modify_drink jwt_payload drink_id (JsonRequest (JObj kvs))) s =
     (mkResponse 422 (JsonBody (envelope 422 "unprocessable")), s)).
Proof.
  intros Hk. unfold dispatch_request.
  rewrite (modify_drink_existing s jwt_payload drink_id row kvs Hk).
  split; [|split].
  - intros ttl ->. apply title_text_str.
  - intros ttl -> Hfree.
    destruct (decide (Drink.title_taken ttl (Some drink_id) s)) as [?|_]; [done|].
    simpl. destruct (json_loads (patched_recipe row kvs)) as [v|]; simpl.
    + split; [done|]. split; [|done]. by intros v' [= <-].
    + split; [done|]. split; [done|]. by intros _.
  - intros [-> | (ttl & -> & Htaken)]; [done|].
    by rewrite decide_True.
Qed.

Lemma C3_patch_applies_truthy_fields_witness :
  dispatch_request
    (modify_drink JNull 3 (JsonRequest (JObj [("title", JStr "Still water")]))) two_drinks =
    (mkResponse 200
       (JsonBody (JObj [("success", JBool true);
                        ("drinks", JArr [JObj [("id", JNum 3); ("title", JStr "Still water");
                                               ("recipe", water_recipe)]])])),
     <[3 := mkRow "Still water" (json_dumps water_recipe)]> two_drinks) ∧
  dispatch_request
    (modify_drink JNull 3 (JsonRequest (JObj [("title", JStr "Latte")]))) two_drinks =
    (mkResponse 422 (JsonBody (envelope 422 "unprocessable")), two_drinks).
Proof.
  split.
  - destruct (C3_patch_applies_truthy_fields two_drinks JNull 3
                (mkRow "Water" (json_dumps water_recipe)) [("title", JStr "Still water")])
      as (_ & Hwritten & _); [reflexivity|].
    destruct (Hwritten "Still water") as (Hstore & Hresp & _);
      [reflexivity|by_evaluation|].
    apply injective_projections; cbn [fst snd].
    + apply Hresp. vm_compute. reflexivity.
    + exact Hstore.
  - destruct (C3_patch_applies_truthy_fields two_drinks JNull 3
                (mkRow "Water" (json_dumps water_recipe)) [("title", JStr "Latte")])
      as (_ & _ & Hrefused); [reflexivity|].
    apply Hrefused. right. exists "Latte". split; [reflexivity|by_evaluation].
Defined.

(** C3 as stated fails.  A title and a recipe that are present in the body
    but falsy (the empty string, the empty list) are not written.  A title
    that another record holds is answered 422 with nothing written, and so
    is a title that is a list, which the column of the examples refuses.  A
    request without a JSON body is answered 422.  On a record whose stored
    recipe text does not decode, a new title is written and the response is
    422. *)
Lemma C3_present_fields_not_applied :
  dict_lookup "title" [("title", JStr ""); ("recipe", JArr [])] = Some (JStr "") ∧
  dict_lookup "recipe" [("title", JStr ""); ("recipe", JArr [])] = Some (JArr []) ∧
  dispatch_request
    (modify_drink JNull 3 (JsonRequest (JObj [("title", JStr ""); ("recipe", JArr [])])))
    two_drinks =
    (mkResponse 200
       (JsonBody (JObj [("success", JBool true);
                        ("drinks", JArr [JObj [("id", JNum 3); ("title", JStr "Water");
                                               ("recipe", water_recipe)]])])),
     two_drinks) ∧
  two_drinks !! 3 = Some (mkRow "Water" (json_dumps water_recipe)) ∧
  mkRow "Water" (json_dumps water_recipe) ≠ mkRow "" (json_dumps (JArr [])) ∧
  dispatch_request (modify_drink JNull 3 (JsonRequest (JObj [("title", JStr "Latte")])))
    two_drinks =
    (mkResponse 422 (JsonBody (envelope 422 "unprocessable")), two_drinks) ∧
  dispatch_request (modify_drink JNull 3 (JsonRequest (JObj [("title", JArr [JStr "Tea"])])))
    two_drinks =
    (mkResponse 422 (JsonBody (envelope 422 "unprocessable")), two_drinks) ∧
  dispatch_request (modify_drink JNull 3 NoJson) two_drinks =
    (mkResponse 422 (JsonBody (envelope 422 "unprocessable")), two_drinks) ∧
  dispatch_request (modify_drink JNull 1 (JsonRequest (JObj [("title", JStr "Ice water")])))
    (<[1 := mkRow "Water" "water"]> ∅) =
    (mkResponse 422 (JsonBody (envelope 422 "unprocessable")),
     <[1 := mkRow "Ice water" "water"]> ∅).
Proof.
  repeat split; try (vm_compute; reflexivity). discriminate.
Qed.

(** C4: for a stored drink and a PATCH /drinks/{id} request whose body has
    no recipe entry (a body with only title), the stored recipe is unchanged
    after the request; when the body has no title entry (a body with only
    recipe), the stored title is unchanged. *)
Theorem C4_patch_leaves_other_field `{JsonModule} `{TitleColumn}
    (s : Store) (jwt_payload : json) (drink_id : Z) (row : Row)
    (kvs : list (string * json)) :
  s !! drink_id = Some row →
  (dict_lookup "recipe" kvs = None →
   row_recipe <$>
     (dispatch_request (modify_drink jwt_payload drink_id (JsonRequest (JObj kvs))) s).2
       !! drink_id = Some (row_recipe row)) ∧
  (dict_lookup "title" kvs = None →
   row_title <$>
     (dispatch_request (modify_drink jwt_payload drink_id (JsonRequest (JObj kvs))) s).2
       !! drink_id = Some (row_title row)).
Proof.
  intros Hk. unfold dispatch_request.
  rewrite (modify_drink_existing s jwt_payload drink_id row kvs Hk).
  unfold patched_title, patched_recipe.
  split; intros ->; simpl.
  - destruct (title_text _) as [ttl|]; simpl; [|by rewrite Hk].
    destruct (decide _); simpl; [by rewrite Hk|].
    destruct (json_loads (row_recipe row)); simpl; by rewrite lookup_insert_eq.
  - rewrite title_text_str. destruct (decide _); simpl; [by rewrite Hk|].
    destruct (json_loads _); simpl; by rewrite lookup_insert_eq.
Qed.

Lemma C4_patch_leaves_other_field_witness :
  two_drinks !! 3 = Some (mkRow "Water" (json_dumps water_recipe)) ∧
  row_recipe <$>
    (dispatch_request
       (modify_drink JNull 3 (JsonRequest (JObj [("title", JStr "Still water")])))
       two_drinks).2 !! 3 = Some (json_dumps water_recipe) ∧
  row_title <$>
    (dispatch_request
       (modify_drink JNull 3 (JsonRequest (JObj [("recipe", latte_recipe)])))
       two_drinks).2 !! 3 = Some "Water".
Proof.
  assert (two_drinks !! 3 = Some (mkRow "Water" (json_dumps water_recipe))) as Hk
    by reflexivity.
  split; [exact Hk|]. split.
  - apply (C4_patch_leaves_other_field two_drinks JNull 3 _
             [("title", JStr "Still water")] Hk).
    reflexivity.
  - apply (C4_patch_leaves_other_field two_drinks JNull 3 _
             [("recipe", latte_recipe)] Hk).
    reflexivity.
Defined.

(** ** Creating a record *)

(** C5: a POST /drinks request that cannot create its record is answered
    422, a missing or malformed body included.  The code reads the body
    before its [try] block: with no JSON body, or a JSON body that is no
    object, the [AttributeError] of [body.get] is answered 500, and a body
    that does not parse is answered 400. *)
Theorem C5_create_without_object_body `{JsonModule} `{TitleColumn} (s : Store) (jwt_payload : json) :
  dispatch_request (create_drink jwt_payload NoJson) s =
    (mkResponse 500 (JsonBody (envelope 500 "Internal server error")), s) ∧
  (∀ l, dispatch_request (create_drink jwt_payload (JsonRequest (JArr l))) s =
          (mkResponse 500 (JsonBody (envelope 500 "Internal server error")), s)) ∧
  dispatch_request (create_drink jwt_payload BadJson) s =
    (mkResponse 400 (JsonBody (envelope 400 "bad request")), s).
Proof.
  unfold dispatch_request, create_drink, bind, lift. simpl.
  repeat split; reflexivity.
Qed.

(** X4: a POST /drinks whose title is a string that a stored record holds
    is answered 422 and stores nothing: the failure of the insert is caught
    by the [try] block of [create_drink]. *)
Theorem create_with_taken_title_is_422 `{JsonModule} `{TitleColumn}
    (s : Store) (jwt_payload : json) (kvs : list (string * json)) (ttl : string) :
  dict_lookup "title" kvs = Some (JStr ttl) →
  Drink.title_taken ttl None s →
  dispatch_request (create_drink jwt_payload (JsonRequest (JObj kvs))) s =
    (mkResponse 422 (JsonBody (envelope 422 "unprocessable")), s).
Proof.
  intros Httl Htaken. unfold dispatch_request.
  rewrite create_drink_object, Httl. simpl. rewrite title_text_str.
  by rewrite decide_True.
Qed.

Lemma create_with_taken_title_is_422_witness :
  dispatch_request
    (create_drink JNull
       (JsonRequest (JObj [("title", JStr "Latte"); ("recipe", water_recipe)])))
    two_drinks =
    (mkResponse 422 (JsonBody (envelope 422 "unprocessable")), two_drinks).
Proof.
  apply (create_with_taken_title_is_422 two_drinks JNull
           [("title", JStr "Latte"); ("recipe", water_recipe)] "Latte").
  - reflexivity.
  - by_evaluation.
Defined.

(** C8: for a valid POST /drinks request (a title that is a string no
    record holds, and a recipe that [json] writes and reads back), on a
    store whose recipe texts decode, the response is 200 with the created
    record, and the following GET /drinks-detail lists that record with a
    recipe equal to the one submitted: every entry that carries the id of
    the created record has that recipe. *)
Theorem C8_created_recipe_round_trips `{JsonModule} `{TitleColumn}
    (s : Store) (jwt_payload jwt_payload' : json) (kvs : list (string * json))
    (ttl : string) (rcp : json) :
  dict_lookup "title" kvs = Some (JStr ttl) →
  dict_lookup "recipe" kvs = Some rcp →
  ¬ Drink.title_taken ttl None s →
  json_loads (json_dumps rcp) = Some rcp →
  all_decodable s →
  ∃ k views,
    s !! k = None ∧
    dispatch_request (create_drink jwt_payload (JsonRequest (JObj kvs))) s =
      (mkResponse 200
         (JsonBody (JObj [("success", JBool true);
                          ("drinks", JArr [JObj [("id", JNum k); ("title", JStr ttl);
                                                 ("recipe", rcp)]])])),
       <[k := mkRow ttl (json_dumps rcp)]> s) ∧
    dispatch_request (get_drinks_detail jwt_payload') (<[k := mkRow ttl (json_dumps rcp)]> s) =
      (mkResponse 200 (JsonBody (JObj [("success", JBool true); ("drinks", JArr views)])),
       <[k := mkRow ttl (json_dumps rcp)]> s) ∧
    JObj [("id", JNum k); ("title", JStr ttl); ("recipe", rcp)] ∈ views ∧
    ∀ v, v ∈ views → field "id" v = Some (JNum k) → field "recipe" v = Some rcp.
Proof.
  intros Httl Hrcp Hfree Hrt Hall.
  set (k := Drink.next_id s). set (row := mkRow ttl (json_dumps rcp)).
  assert (all_decodable (<[k := row]> s)) as Hall'.
  { apply map_Forall_insert_2; [|done]. unfold decodable. simpl. by rewrite Hrt. }
  destruct (get_drinks_detail_lists_all (<[k := row]> s) jwt_payload'
              (insert_non_empty _ _ _) Hall')
    as (views & Hresp & rows & Hperm & _ & Hviews).
  exists k, views. split; [apply next_id_fresh|]. split; [|split; [|split]].
  - unfold dispatch_request. rewrite create_drink_object, Httl, Hrcp. simpl.
    rewrite title_text_str.
    destruct (decide (Drink.title_taken ttl None s)); [done|]. by rewrite Hrt.
  - unfold dispatch_request. by rewrite Hresp.
  - assert ((k, row) ∈ rows) as [i Hi]%list_elem_of_lookup.
    { rewrite Hperm. apply elem_of_map_to_list, lookup_insert_eq. }
    destruct (Forall2_lookup_l _ _ _ i _ Hviews Hi) as (v & Hv & Hlong & _).
    rewrite (long_of_row k row rcp Hrt) in Hlong. injection Hlong as <-.
    by apply list_elem_of_lookup_2 in Hv.
  - intros v [i Hi]%list_elem_of_lookup Hid.
    destruct (Forall2_lookup_r _ _ _ i _ Hviews Hi) as ([k' r'] & Hrow & Hlong & Hid').
    rewrite Hid in Hid'. simpl in Hid'. assert (k' = k) as -> by congruence.
    apply list_elem_of_lookup_2 in Hrow. rewrite Hperm in Hrow.
    apply elem_of_map_to_list in Hrow. simpl in Hrow.
    rewrite lookup_insert_eq in Hrow. injection Hrow as <-.
    rewrite (long_of_row k row rcp Hrt) in Hlong. by injection Hlong as <-.
Qed.

Lemma C8_created_recipe_round_trips_witness :
  ∃ k views,
    two_drinks !! k = None ∧
    dispatch_request
      (create_drink JNull
         (JsonRequest (JObj [("title", JStr "Mocha"); ("recipe", latte_recipe)])))
      two_drinks =
      (mkResponse 200
         (JsonBody (JObj [("success", JBool true);
                          ("drinks", JArr [JObj [("id", JNum k); ("title", JStr "Mocha");
                                                 ("recipe", latte_recipe)]])])),
       <[k := mkRow "Mocha" (json_dumps latte_recipe)]> two_drinks) ∧
    dispatch_request (get_drinks_detail JNull)
      (<[k := mkRow "Mocha" (json_dumps latte_recipe)]> two_drinks) =
      (mkResponse 200 (JsonBody (JObj [("success", JBool true); ("drinks", JArr views)])),
       <[k := mkRow "Mocha" (json_dumps latte_recipe)]> two_drinks) ∧
    JObj [("id", JNum k); ("title", JStr "Mocha"); ("recipe", latte_recipe)] ∈ views ∧
    ∀ v, v ∈ views → field "id" v = Some (JNum k) → field "recipe" v = Some latte_recipe.
Proof.
  apply (C8_created_recipe_round_trips two_drinks JNull JNull
           [("title", JStr "Mocha"); ("recipe", latte_recipe)] "Mocha" latte_recipe).
  - reflexivity.
  - reflexivity.
  - by_evaluation.
  - vm_compute. reflexivity.
  - by_evaluation.
Defined.

(** ** Requests on an id that no record has *)




(** ** Deleting a record *)

(** C7: a DELETE /drinks/{id} request whose id matches a stored record is
    answered 200 with [{success: true, delete: id}], the record is removed
    from the store, and no entry of the [drinks] array of a following
    GET /drinks carries that id. *)
Theorem C7_delete_removes_record `{JsonModule}
    (s : Store) (jwt_payload : json) (drink_id : Z) (row : Row) :
  s !! drink_id = Some row →
  dispatch_request (delete_drink jwt_payload drink_id) s =
    (mkResponse 200 (JsonBody (JObj [("success", JBool true); ("delete", JNum drink_id)])),
     delete drink_id s) ∧
  delete drink_id s !! drink_id = None ∧
  ∀ views,
    drinks_of (dispatch_request retrieve_drinks (delete drink_id s)).1 = Some views →
    ∀ v, v ∈ views → field "id" v ≠ Some (JNum drink_id).
Proof.
  intros Hk. split; [|split].
  - unfold dispatch_request, delete_drink.
    rewrite (one_or_none_Some s drink_id row Hk). reflexivity.
  - apply lookup_delete_eq.
  - intros views Hviews v Hv Hid. unfold dispatch_request in Hviews.
    destruct (retrieve_drinks_cases (delete drink_id s))
      as [[_ Hr]|[(_ & views' & Hr & Hall)|(_ & name & Hr)]];
      rewrite Hr in Hviews; simpl in Hviews; try discriminate.
    injection Hviews as ->.
    apply list_elem_of_lookup in Hv as [i Hi].
    destruct (Forall2_lookup_r _ _ _ i v Hall Hi) as ([k r] & Hrow & Hshort).
    apply short_Ok_id in Hshort. rewrite Hid in Hshort. simpl in Hshort.
    injection Hshort as <-.
    apply list_elem_of_lookup_2, elem_of_order_by_id in Hrow.
    by rewrite lookup_delete_eq in Hrow.
Qed.

Lemma C7_delete_removes_record_witness :
  two_drinks !! 3 = Some (mkRow "Water" (json_dumps water_recipe)) ∧
  dispatch_request (delete_drink JNull 3) two_drinks =
    (mkResponse 200 (JsonBody (JObj [("success", JBool true); ("delete", JNum 3)])),
     delete 3 two_drinks) ∧
  delete 3 two_drinks !! 3 = None ∧
  ∀ views,
    drinks_of (dispatch_request retrieve_drinks (delete 3 two_drinks)).1 = Some views →
    ∀ v, v ∈ views → field "id" v ≠ Some (JNum 3).
Proof.
  split; [reflexivity|].
  apply (C7_delete_removes_record two_drinks JNull 3 (mkRow "Water" (json_dumps water_recipe))).
  reflexivity.
Defined.

(** ** Listing the records *)

(** C9: for every store that is not empty, the [drinks] array that
    GET /drinks and GET /drinks-detail return holds one view of every
    stored record, in ascending order of id; and the array is returned, with
    status 200, whenever the stored recipe texts can be rendered (they
    decode, to a list of ingredient entries for the short view). *)
Theorem C9_lists_all_sorted `{JsonModule} (s : Store) (jwt_payload : json) :
  s ≠ ∅ →
  (∀ views,
     drinks_of (dispatch_request retrieve_drinks s).1 = Some views →
     lists_all_by_id Drink.short s views) ∧
  (∀ views,
     drinks_of (dispatch_request (get_drinks_detail jwt_payload) s).1 = Some views →
     lists_all_by_id Drink.long s views) ∧
  (map_Forall (λ _ r, ingredient_list r) s →
   ∃ views,
     dispatch_request retrieve_drinks s =
       (mkResponse 200 (JsonBody (JObj [("success", JBool true); ("drinks", JArr views)])), s)) ∧
  (all_decodable s →
   ∃ views,
     dispatch_request (get_drinks_detail jwt_payload) s =
       (mkResponse 200 (JsonBody (JObj [("success", JBool true); ("drinks", JArr views)])), s)).
Proof.
  intros Hne. unfold dispatch_request. repeat split.
  - intros views. unfold retrieve_drinks. rewrite (query_all_nonempty s Hne).
    destruct (comprehension Drink.short _) as [views'|e] eqn:Hviews; simpl.
    + intros [= <-]. apply rendered_lists_all_by_id; [apply short_Ok_id | done].
    + apply comprehension_Raise_inv in Hviews as (d & _ & [name ->]%short_Raise).
      discriminate.
  - intros views. unfold get_drinks_detail. rewrite (query_all_nonempty s Hne).
    destruct (comprehension Drink.long _) as [views'|e] eqn:Hviews; simpl.
    + intros [= <-]. apply rendered_lists_all_by_id; [apply long_Ok_id | done].
    + apply comprehension_Raise_inv in Hviews as (d & _ & [name ->]%long_Raise).
      discriminate.
  - intros Hall. destruct (retrieve_drinks_lists_all s Hne Hall) as (views & -> & _).
    by exists views.
  - intros Hall.
    destruct (get_drinks_detail_lists_all s jwt_payload Hne Hall) as (views & -> & _).
    by exists views.
Qed.

Lemma C9_lists_all_sorted_witness :
  two_drinks ≠ ∅ ∧
  (∃ views,
     dispatch_request retrieve_drinks two_drinks =
       (mkResponse 200 (JsonBody (JObj [("success", JBool true); ("drinks", JArr views)])),
        two_drinks) ∧
     lists_all_by_id Drink.short two_drinks views) ∧
  (∃ views,
     dispatch_request (get_drinks_detail JNull) two_drinks =
       (mkResponse 200 (JsonBody (JObj [("success", JBool true); ("drinks", JArr views)])),
        two_drinks) ∧
     lists_all_by_id Drink.long two_drinks views).
Proof.
  assert (two_drinks ≠ ∅) as Hne by by_evaluation.
  destruct (C9_lists_all_sorted two_drinks JNull Hne)
    as (Hshort & Hlong & Hshort_ok & Hlong_ok).
  split; [exact Hne|]. split.
  - destruct Hshort_ok as [views Hviews].
    + unfold two_drinks.
      repeat apply map_Forall_insert_2; try apply map_Forall_empty.
      all: eexists; split; [vm_compute; reflexivity|].
      all: repeat constructor; do 3 eexists; repeat split; reflexivity.
    + exists views. split; [exact Hviews|]. apply Hshort. by rewrite Hviews.
  - destruct Hlong_ok as [views Hviews]; [by_evaluation|].
    exists views. split; [exact Hviews|]. apply Hlong. by rewrite Hviews.
Defined.

(** ** Further properties of the routes and the error handlers *)

Section RouteFacts.
Context `{JsonModule} `{TitleColumn}.

(** What [GET /drinks-detail] answers, by cases on the store. *)
Lemma get_drinks_detail_cases (jwt_payload : json) (s : Store) :
  (s = ∅ ∧ get_drinks_detail jwt_payload s = (abort 404, s)) ∨
  (s ≠ ∅ ∧ ∃ views,
     get_drinks_detail jwt_payload s =
       (Ok (jsonify (JObj [("success", JBool true); ("drinks", JArr views)])), s)) ∨
  (s ≠ ∅ ∧ ∃ name, get_drinks_detail jwt_payload s = (Raise (PyError name), s)).
Proof.
  unfold get_drinks_detail.
  destruct (Nat.eqb_spec (length (Drink.query_order_by_id_all s)) 0) as [Hlen|Hlen];
    rewrite length_query_all in Hlen.
  - left. by apply map_size_empty_inv in Hlen.
  - right. assert (s ≠ ∅) by (intros ->; by rewrite map_size_empty in Hlen).
    destruct (comprehension Drink.long (Drink.query_order_by_id_all s))
      as [views|e] eqn:Hv.
    + left. split; [done|]. by exists views.
    + right. split; [done|].
      apply comprehension_Raise_inv in Hv as (d & _ & Hd).
      apply long_Raise in Hd as [name ->]. by exists name.
Qed.

(** A PATCH on a stored record whose body is no JSON object. *)
Lemma modify_drink_no_object (s : Store) (jwt_payload : json) (k : Z) (row : Row)
    (request : Request) :
  s !! k = Some row →
  (∀ kvs, request ≠ JsonRequest (JObj kvs)) →
  modify_drink jwt_payload k request s = (abort 422, s).
Proof.
  intros Hk Hreq. unfold modify_drink. rewrite (one_or_none_Some s k row Hk).
  destruct request as [| |[| | | | |kvs]]; try reflexivity.
  by destruct (Hreq kvs).
Qed.

(** The outcomes of a PATCH, whatever the request. *)
Lemma modify_drink_outcomes (s : Store) (jwt_payload : json) (k : Z) (request : Request) :
  (s !! k = None ∧ Drink.in_range k ∧
   modify_drink jwt_payload k request s = (abort 404, s)) ∨
  modify_drink jwt_payload k request s = (abort 422, s) ∨
  (∃ row kvs ttl,
     s !! k = Some row ∧ request = JsonRequest (JObj kvs) ∧
     title_text (patched_title row kvs) = Some ttl ∧
     ¬ Drink.title_taken ttl (Some k) s ∧
     ((∃ v, json_loads (patched_recipe row kvs) = Some v ∧
            modify_drink jwt_payload k request s =
              (Ok (jsonify (JObj [("success", JBool true);
                                  ("drinks", JArr [JObj [("id", JNum k); ("title", JStr ttl);
                                                         ("recipe", v)]])])),
               <[k := mkRow ttl (patched_recipe row kvs)]> s)) ∨
      (json_loads (patched_recipe row kvs) = None ∧
       modify_drink jwt_payload k request s =
         (abort 422, <[k := mkRow ttl (patched_recipe row kvs)]> s)))).
Proof.
  destruct (s !! k) as [row|] eqn:Hk.
  - right. destruct request as [| |[| | | | |kvs]];
      try (left; by apply (modify_drink_no_object s _ k row)).
    rewrite (modify_drink_existing s jwt_payload k row kvs Hk).
    destruct (title_text (patched_title row kvs)) as [ttl|] eqn:Httl; [|by left].
    destruct (decide (Drink.title_taken ttl (Some k) s)) as [?|Hfree]; [by left|].
    right. exists row, kvs, ttl. repeat (split; [done|]). simpl.
    destruct (json_loads (patched_recipe row kvs)) as [v|]; [left; by exists v | by right].
  - destruct (decide (Drink.in_range k)) as [Hin|Hout].
    + left. split; [done|]. split; [done|].
      apply (unknown_id_is_404 s jwt_payload k request Hk Hin).
    + right; left. apply (unbound_id_is_422 s jwt_payload k request Hk Hout).
Qed.

(** The outcomes of a DELETE. *)
Lemma delete_drink_outcomes (s : Store) (jwt_payload : json) (k : Z) :
  (s !! k = None ∧ Drink.in_range k ∧ delete_drink jwt_payload k s = (abort 404, s)) ∨
  (s !! k = None ∧ ¬ Drink.in_range k ∧ delete_drink jwt_payload k s = (abort 422, s)) ∨
  (is_Some (s !! k) ∧
   delete_drink jwt_payload k s =
     (Ok (jsonify (JObj [("success", JBool true); ("delete", JNum k)])), delete k s)).
Proof.
  unfold delete_drink. destruct (s !! k) as [row|] eqn:Hk.
  - right; right. split; [by eexists|]. by rewrite (one_or_none_Some s k row Hk).
  - destruct (decide (Drink.in_range k)) as [Hin|Hout].
    + left. repeat (split; [done|]). by rewrite (one_or_none_None s k Hk Hin).
    + right; left. repeat (split; [done|]). by rewrite (one_or_none_Raise s k Hk Hout).
Qed.

(** The outcomes of a POST, whatever the request. *)
Lemma create_drink_outcomes (s : Store) (jwt_payload : json) (request : Request) :
  create_drink jwt_payload request s = (Raise (PyError "AttributeError"), s) ∨
  create_drink jwt_payload request s = (abort 400, s) ∨
  create_drink jwt_payload request s = (abort 422, s) ∨
  (∃ kvs ttl,
     request = JsonRequest (JObj kvs) ∧
     title_text (default JNull (dict_lookup "title" kvs)) = Some ttl ∧
     ¬ Drink.title_taken ttl None s ∧
     let text := json_dumps (default JNull (dict_lookup "recipe" kvs)) in
     let k := Drink.next_id s in
     ((∃ v, json_loads text = Some v ∧
            create_drink jwt_payload request s =
              (Ok (jsonify (JObj [("success", JBool true);
                                  ("drinks", JArr [JObj [("id", JNum k); ("title", JStr ttl);
                                                         ("recipe", v)]])])),
               <[k := mkRow ttl text]> s)) ∨
      (json_loads text = None ∧
       create_drink jwt_payload request s = (abort 422, <[k := mkRow ttl text]> s)))).
Proof.
  destruct request as [| |[| | | | |kvs]]; try (by left); try (by right; left).
  rewrite create_drink_object. simpl.
  destruct (title_text (default JNull (dict_lookup "title" kvs))) as [ttl|] eqn:Httl;
    [|by right; right; left].
  destruct (decide (Drink.title_taken ttl None s)) as [?|Hfree]; [by right; right; left|].
  right; right; right. exists kvs, ttl. repeat (split; [done|]).
  destruct (json_loads _) as [v|]; [left; by exists v | by right].
Qed.

End RouteFacts.

(** X5: whatever the store and the request, each route answers with one of
    a few status codes: 200, 404 or 500 for the two listings, 200, 400, 422
    or 500 for POST, and 200, 404 or 422 for PATCH and DELETE; the body has
    [success: true] when the status is 200 and is the error envelope
    otherwise. *)
Theorem routes_answer_json `{JsonModule} `{TitleColumn}
    (s : Store) (jwt_payload : json) (drink_id : Z) (request : Request) :
  answers [200; 404; 500] (dispatch_request retrieve_drinks s).1 ∧
  answers [200; 404; 500] (dispatch_request (get_drinks_detail jwt_payload) s).1 ∧
  answers [200; 400; 422; 500] (dispatch_request (create_drink jwt_payload request) s).1 ∧
  answers [200; 404; 422] (dispatch_request (modify_drink jwt_payload drink_id request) s).1 ∧
  answers [200; 404; 422] (dispatch_request (delete_drink jwt_payload drink_id) s).1.
Proof.
  unfold dispatch_request. refine (conj _ (conj _ (conj _ (conj _ _)))).
  - destruct (retrieve_drinks_cases s)
      as [[_ ->]|[(_ & views & -> & _)|(_ & name & ->)]]; answers_by_evaluation.
  - destruct (get_drinks_detail_cases jwt_payload s)
      as [[_ ->]|[(_ & views & ->)|(_ & name & ->)]]; answers_by_evaluation.
  - destruct (create_drink_outcomes s jwt_payload request)
      as [->|[->|[->|(kvs & ttl & _ & _ & _ & [(v & _ & ->)|[_ ->]])]]];
      answers_by_evaluation.
  - destruct (modify_drink_outcomes s jwt_payload drink_id request)
      as [(_ & _ & ->)|[->|(row & kvs & ttl & _ & _ & _ & _ & [(v & _ & ->)|[_ ->]])]];
      answers_by_evaluation.
  - destruct (delete_drink_outcomes s jwt_payload drink_id)
      as [(_ & _ & ->)|[(_ & _ & ->)|[_ ->]]]; answers_by_evaluation.
Qed.

(** X6: a PATCH on a stored record whose request has no JSON body, a body
    that does not parse, or a JSON body that is no object is answered 422
    and changes nothing: [modify_drink] reads the body inside its [try]. *)
Theorem modify_without_object_body_is_422 `{JsonModule} `{TitleColumn}
    (s : Store) (jwt_payload : json) (drink_id : Z) (row : Row) (request : Request) :
  s !! drink_id = Some row →
  (∀ kvs, request ≠ JsonRequest (JObj kvs)) →
  dispatch_request (modify_drink jwt_payload drink_id request) s =
    (mkResponse 422 (JsonBody (envelope 422 "unprocessable")), s).
Proof.
  intros Hk Hreq. unfold dispatch_request.
  by rewrite (modify_drink_no_object s jwt_payload drink_id row request Hk Hreq).
Qed.

Lemma modify_without_object_body_is_422_witness :
  dispatch_request (modify_drink JNull 3 NoJson) two_drinks =
    (mkResponse 422 (JsonBody (envelope 422 "unprocessable")), two_drinks) ∧
  dispatch_request (modify_drink JNull 3 (JsonRequest (JArr [JStr "Tea"]))) two_drinks =
    (mkResponse 422 (JsonBody (envelope 422 "unprocessable")), two_drinks).
Proof.
  split.
  - apply (modify_without_object_body_is_422 two_drinks JNull 3
             (mkRow "Water" (json_dumps water_recipe)) NoJson); [reflexivity|].
    intros kvs. discriminate.
  - apply (modify_without_object_body_is_422 two_drinks JNull 3
             (mkRow "Water" (json_dumps water_recipe)) (JsonRequest (JArr [JStr "Tea"])));
      [reflexivity|].
    intros kvs. discriminate.
Defined.

Lemma title_taken_insert_self (t : string) (k : Z) (row : Row) (s : Store) :
  Drink.title_taken t (Some k) (<[k := row]> s) ↔ Drink.title_taken t (Some k) s.
Proof.
  unfold Drink.title_taken, map_Exists.
  split; intros (k' & r & Hl & Ht & Hne); exists k', r;
    (assert (k ≠ k') by congruence); [rewrite lookup_insert_ne in Hl by done|
                                     rewrite lookup_insert_ne by done]; done.
Qed.

Lemma patched_title_again `{TitleColumn}
    (row : Row) (kvs : list (string * json)) (ttl text : string) :
  title_text (patched_title row kvs) = Some ttl →
  title_text (patched_title (mkRow ttl text) kvs) = Some ttl.
Proof.
  unfold patched_title. destruct (truthy _); [done|].
  intros _. apply title_text_str.
Qed.

Lemma patched_recipe_again `{JsonModule} (row : Row) (kvs : list (string * json))
    (ttl : string) :
  patched_recipe (mkRow ttl (patched_recipe row kvs)) kvs = patched_recipe row kvs.
Proof. unfold patched_recipe. by destruct (truthy _). Qed.

(** X7: PATCH is idempotent: sending the same request again, on the store
    the first one left, gives the same response and leaves that store as it
    is. *)
Theorem modify_drink_idempotent `{JsonModule} `{TitleColumn}
    (s : Store) (jwt_payload : json) (drink_id : Z) (request : Request) :
  dispatch_request (modify_drink jwt_payload drink_id request)
    (dispatch_request (modify_drink jwt_payload drink_id request) s).2 =
  dispatch_request (modify_drink jwt_payload drink_id request) s.
Proof.
  unfold dispatch_request.
  destruct (modify_drink_outcomes s jwt_payload drink_id request)
    as [(_ & _ & Hr)|[Hr|(row & kvs & ttl & Hk & -> & Httl & Hfree & Hr)]].
  - rewrite Hr. simpl. by rewrite Hr.
  - rewrite Hr. simpl. by rewrite Hr.
  - set (text := patched_recipe row kvs) in *.
    assert (modify_drink jwt_payload drink_id (JsonRequest (JObj kvs))
              (<[drink_id := mkRow ttl text]> s) =
            modify_drink jwt_payload drink_id (JsonRequest (JObj kvs)) s) as Hagain.
    { rewrite (modify_drink_existing _ jwt_payload drink_id (mkRow ttl text) kvs
                 (lookup_insert_eq _ _ _)).
      rewrite (modify_drink_existing s jwt_payload drink_id row kvs Hk).
      rewrite (patched_title_again row kvs ttl text Httl), Httl.
      unfold text. rewrite patched_recipe_again.
      destruct (decide (Drink.title_taken ttl (Some drink_id) s)); [done|].
      destruct (decide _) as [Htaken|_]; [by apply title_taken_insert_self in Htaken|].
      simpl. by rewrite insert_insert_eq. }
    destruct Hr as [(v & _ & Hr)|[_ Hr]]; rewrite Hr; simpl; by rewrite Hagain, Hr.
Qed.

(** X8: a PATCH never adds or removes a record, and never changes a record
    other than the one it addresses. *)
Theorem modify_drink_frame `{JsonModule} `{TitleColumn}
    (s : Store) (jwt_payload : json) (drink_id : Z) (request : Request) :
  dom (dispatch_request (modify_drink jwt_payload drink_id request) s).2 = dom s ∧
  ∀ k, k ≠ drink_id →
    (dispatch_request (modify_drink jwt_payload drink_id request) s).2 !! k = s !! k.
Proof.
  unfold dispatch_request.
  destruct (modify_drink_outcomes s jwt_payload drink_id request)
    as [(_ & _ & ->)|[->|(row & kvs & ttl & Hk & _ & _ & _ & [(v & _ & ->)|[_ ->]])]];
    simpl; try done.
  - split; [by apply dom_insert_lookup_L|]. intros k Hne. by rewrite lookup_insert_ne.
  - split; [by apply dom_insert_lookup_L|]. intros k Hne. by rewrite lookup_insert_ne.
Qed.

Lemma patched_title_written `{TitleColumn}
    (row : Row) (kvs : list (string * json)) (ttl : string) :
  title_text (patched_title row kvs) = Some ttl → ttl = row_title row ∨ ttl ≠ "".
Proof.
  unfold patched_title. destruct (truthy _) eqn:Ht.
  - intros Hv. right. by apply (title_text_truthy _ _ Ht Hv).
  - rewrite title_text_str. intros [= <-]. by left.
Qed.

Lemma patched_recipe_written `{JsonModule} (row : Row) (kvs : list (string * json)) :
  patched_recipe row kvs = row_recipe row ∨
  ∃ v, truthy v = true ∧ dict_lookup "recipe" kvs = Some v ∧
       patched_recipe row kvs = json_dumps v.
Proof.
  unfold patched_recipe.
  destruct (dict_lookup "recipe" kvs) as [v|]; simpl; [|by left].
  destruct (truthy v) eqn:Hv; [|by left]. right. by exists v.
Qed.

(** X9: a PATCH writes truthy values only: the title of the addressed
    record either stays as it was or becomes a string that is not empty, and
    its recipe text either stays as it was or is the text of a truthy
    value. *)
Theorem modify_drink_writes_truthy_only `{JsonModule} `{TitleColumn}
    (s : Store) (jwt_payload : json) (drink_id : Z) (row : Row) (request : Request) :
  s !! drink_id = Some row →
  ∃ row',
    (dispatch_request (modify_drink jwt_payload drink_id request) s).2 !! drink_id =
      Some row' ∧
    (row_title row' = row_title row ∨ row_title row' ≠ "") ∧
    (row_recipe row' = row_recipe row ∨
     ∃ v, truthy v = true ∧ row_recipe row' = json_dumps v).
Proof.
  intros Hk. unfold dispatch_request.
  destruct (modify_drink_outcomes s jwt_payload drink_id request)
    as [(Hnone & _ & _)|[->|(row0 & kvs & ttl & Hk0 & _ & Httl & _ & Hr)]].
  - congruence.
  - exists row. simpl. split; [done|]. split; by left.
  - assert (row0 = row) as -> by congruence.
    exists (mkRow ttl (patched_recipe row kvs)). split.
    { destruct Hr as [(v & _ & ->)|[_ ->]]; simpl; apply lookup_insert_eq. }
    simpl. split.
    + destruct (patched_title_written row kvs ttl Httl) as [->|?]; [by left|by right].
    + destruct (patched_recipe_written row kvs) as [->|(v & Hv & _ & ->)];
        [by left|right; by exists v].
Qed.

Lemma modify_drink_writes_truthy_only_witness :
  ∃ row',
    (dispatch_request
       (modify_drink JNull 3 (JsonRequest (JObj [("title", JStr ""); ("recipe", JArr [])])))
       two_drinks).2 !! 3 = Some row' ∧
    (row_title row' = "Water" ∨ row_title row' ≠ "") ∧
    (row_recipe row' = json_dumps water_recipe ∨
     ∃ v, truthy v = true ∧ row_recipe row' = json_dumps v).
Proof.
  apply (modify_drink_writes_truthy_only two_drinks JNull 3
           (mkRow "Water" (json_dumps water_recipe))).
  reflexivity.
Defined.

(** X10: a POST never changes a record that is already stored; it adds
    at most one record, and exactly one when it is answered 200. *)
Theorem create_drink_frame `{JsonModule} `{TitleColumn}
    (s : Store) (jwt_payload : json) (request : Request) :
  (∀ k r, s !! k = Some r →
     (dispatch_request (create_drink jwt_payload request) s).2 !! k = Some r) ∧
  (status (dispatch_request (create_drink jwt_payload request) s).1 = 200 →
   size (dispatch_request (create_drink jwt_payload request) s).2 = S (size s)) ∧
  ((dispatch_request (create_drink jwt_payload request) s).2 = s ∨
   size (dispatch_request (create_drink jwt_payload request) s).2 = S (size s)).
Proof.
  unfold dispatch_request.
  assert (∀ row, size (<[Drink.next_id s := row]> s) = S (size s)) as Hsize.
  { intros row. apply map_size_insert_None, next_id_fresh. }
  assert (∀ row k r, s !! k = Some r → <[Drink.next_id s := row]> s !! k = Some r)
    as Hkeep.
  { intros row k r Hk. rewrite lookup_insert_ne; [done|].
    intros <-. by rewrite next_id_fresh in Hk. }
  destruct (create_drink_outcomes s jwt_payload request)
    as [->|[->|[->|(kvs & ttl & _ & _ & _ & [(v & _ & ->)|[_ ->]])]]]; simpl;
    repeat split; auto; try done.
Qed.

(** X11: when a POST has returned a created record, the DELETE of the id
    of that record is answered 200 and gives back the store as it was before
    the POST. *)
Theorem create_then_delete_restores `{JsonModule} `{TitleColumn}
    (s : Store) (jwt_payload jwt_payload' : json) (request : Request)
    (v : json) (k : Z) :
  drinks_of (dispatch_request (create_drink jwt_payload request) s).1 = Some [v] →
  field "id" v = Some (JNum k) →
  dispatch_request (delete_drink jwt_payload' k)
    (dispatch_request (create_drink jwt_payload request) s).2 =
    (mkResponse 200 (JsonBody (JObj [("success", JBool true); ("delete", JNum k)])), s).
Proof.
  unfold dispatch_request.
  destruct (create_drink_outcomes s jwt_payload request)
    as [->|[->|[->|(kvs & ttl & _ & _ & _ & [(v' & _ & ->)|[_ ->]])]]]; simpl;
    try discriminate.
  intros [= <-] [= <-].
  destruct (delete_drink_outcomes (<[Drink.next_id s := mkRow ttl
              (json_dumps (default JNull (dict_lookup "recipe" kvs)))]> s)
              jwt_payload' (Drink.next_id s)) as [(Hnone & _)|[(Hnone & _)|[_ ->]]].
  - by rewrite lookup_insert_eq in Hnone.
  - by rewrite lookup_insert_eq in Hnone.
  - simpl. by rewrite delete_insert_id by apply next_id_fresh.
Qed.

Lemma create_then_delete_restores_witness :
  dispatch_request (delete_drink JNull 8)
    (dispatch_request
       (create_drink JNull
          (JsonRequest (JObj [("title", JStr "Mocha"); ("recipe", latte_recipe)])))
       two_drinks).2 =
    (mkResponse 200 (JsonBody (JObj [("success", JBool true); ("delete", JNum 8)])),
     two_drinks).
Proof.
  apply (create_then_delete_restores two_drinks JNull JNull
           (JsonRequest (JObj [("title", JStr "Mocha"); ("recipe", latte_recipe)]))
           (JObj [("id", JNum 8); ("title", JStr "Mocha"); ("recipe", latte_recipe)]) 8).
  - vm_compute. reflexivity.
  - reflexivity.
Defined.

(** X12: a DELETE of an id the database can bind is answered 200 or 404,
    and a further DELETE or PATCH of that id is answered 404 and changes
    nothing. *)
Theorem deleted_id_is_unknown `{JsonModule} `{TitleColumn}
    (s : Store) (jwt_payload jwt_payload' : json) (drink_id : Z) (request : Request) :
  Drink.in_range drink_id →
  status (dispatch_request (delete_drink jwt_payload drink_id) s).1 ∈ [200; 404] ∧
  dispatch_request (delete_drink jwt_payload' drink_id)
    (dispatch_request (delete_drink jwt_payload drink_id) s).2 =
    (mkResponse 404 (JsonBody (envelope 404 "resource not found")),
     (dispatch_request (delete_drink jwt_payload drink_id) s).2) ∧
  dispatch_request (modify_drink jwt_payload' drink_id request)
    (dispatch_request (delete_drink jwt_payload drink_id) s).2 =
    (mkResponse 404 (JsonBody (envelope 404 "resource not found")),
     (dispatch_request (delete_drink jwt_payload drink_id) s).2).
Proof.
  intros Hin.
  assert (status (dispatch_request (delete_drink jwt_payload drink_id) s).1 ∈ [200; 404] ∧
          (dispatch_request (delete_drink jwt_payload drink_id) s).2 !! drink_id = None)
    as [Hstatus Hgone].
  { unfold dispatch_request.
    destruct (delete_drink_outcomes s jwt_payload drink_id)
      as [(Hnone & _ & ->)|[(_ & Hout & _)|[_ ->]]]; simpl.
    - split; [set_solver|done].
    - done.
    - split; [set_solver|apply lookup_delete_eq]. }
  split; [exact Hstatus|].
  revert Hgone. generalize (dispatch_request (delete_drink jwt_payload drink_id) s).2.
  intros s' Hgone. unfold dispatch_request.
  destruct (unknown_id_is_404 s' jwt_payload' drink_id request Hgone Hin) as [-> ->].
  split; reflexivity.
Qed.

Lemma deleted_id_is_unknown_witness :
  status (dispatch_request (delete_drink JNull 3) two_drinks).1 ∈ [200; 404] ∧
  dispatch_request (delete_drink JNull 3)
    (dispatch_request (delete_drink JNull 3) two_drinks).2 =
    (mkResponse 404 (JsonBody (envelope 404 "resource not found")),
     (dispatch_request (delete_drink JNull 3) two_drinks).2) ∧
  dispatch_request (modify_drink JNull 3 (JsonRequest (JObj [("title", JStr "Mocha")])))
    (dispatch_request (delete_drink JNull 3) two_drinks).2 =
    (mkResponse 404 (JsonBody (envelope 404 "resource not found")),
     (dispatch_request (delete_drink JNull 3) two_drinks).2).
Proof.
  apply (deleted_id_is_unknown two_drinks JNull JNull 3
           (JsonRequest (JObj [("title", JStr "Mocha")]))).
  unfold Drink.in_range. lia.
Defined.

(** X13: the two listings never change the store, and each one is answered
    404 exactly when the store is empty. *)
Theorem listing_is_404_iff_empty `{JsonModule} (s : Store) (jwt_payload : json) :
  (dispatch_request retrieve_drinks s).2 = s ∧
  (dispatch_request (get_drinks_detail jwt_payload) s).2 = s ∧
  (status (dispatch_request retrieve_drinks s).1 = 404 ↔ s = ∅) ∧
  (status (dispatch_request (get_drinks_detail jwt_payload) s).1 = 404 ↔ s = ∅).
Proof.
  unfold dispatch_request.
  destruct (retrieve_drinks_cases s)
    as [[He ->]|[(Hne & views & -> & _)|(Hne & name & ->)]];
  destruct (get_drinks_detail_cases jwt_payload s)
    as [[He' ->]|[(Hne' & views' & ->)|(Hne' & name' & ->)]];
    simpl; repeat split; try done.
Qed.

(** X14: the handlers of 404, 422, 405 and 500 send a fixed message,
    whatever description the error carries (a code/description dict
    included). *)
Theorem fixed_messages_ignore_description (d : Description) :
  handle_user_exception (Http (mkHTTPException 404 d)) =
    mkResponse 404 (JsonBody (envelope 404 "resource not found")) ∧
  handle_user_exception (Http (mkHTTPException 422 d)) =
    mkResponse 422 (JsonBody (envelope 422 "unprocessable")) ∧
  handle_user_exception (Http (mkHTTPException 405 d)) =
    mkResponse 405 (JsonBody (envelope 405 "method not allowed")) ∧
  handle_user_exception (Http (mkHTTPException 500 d)) =
    mkResponse 500 (JsonBody (envelope 500 "Internal server error")).
Proof.
  unfold handle_user_exception, not_found, unprocessable, not_found_405,
    internal_server_error. simpl. repeat split; reflexivity.
Qed.

(** X15: the handlers of 400, 401 and 403 send their generic message when
    the description of the error is no dict, or a dict that lacks the entry
    [code] or the entry [description]. *)
Theorem incomplete_description_gets_generic_message (d : Description) :
  (∀ kvs, d = DictDescription kvs →
          dict_lookup "code" kvs = None ∨ dict_lookup "description" kvs = None) →
  handle_user_exception (Http (mkHTTPException 400 d)) =
    mkResponse 400 (JsonBody (envelope 400 "bad request")) ∧
  handle_user_exception (Http (mkHTTPException 401 d)) =
    mkResponse 401 (JsonBody (envelope 401 "Unauthorized")) ∧
  handle_user_exception (Http (mkHTTPException 403 d)) =
    mkResponse 403 (JsonBody (envelope 403 "Forbidden")).
Proof.
  intros Hd.
  assert (code_and_description d = None) as Hnone.
  { destruct d as [| |kvs]; try reflexivity. simpl.
    destruct (Hd kvs eq_refl) as [-> | ->]; [done|].
    by destruct (dict_lookup "code" kvs). }
  unfold handle_user_exception, bad_request, unauthorized, forbidden. simpl.
  rewrite Hnone. repeat split; reflexivity.
Qed.

Lemma incomplete_description_gets_generic_message_witness :
  handle_user_exception
    (Http (mkHTTPException 400 (DictDescription [("code", "invalid_header")]))) =
    mkResponse 400 (JsonBody (envelope 400 "bad request")) ∧
  handle_user_exception
    (Http (mkHTTPException 401 (DictDescription [("code", "invalid_header")]))) =
    mkResponse 401 (JsonBody (envelope 401 "Unauthorized")) ∧
  handle_user_exception
    (Http (mkHTTPException 403 (DictDescription [("code", "invalid_header")]))) =
    mkResponse 403 (JsonBody (envelope 403 "Forbidden")).
Proof.
  apply (incomplete_description_gets_generic_message
           (DictDescription [("code", "invalid_header")])).
  intros kvs [= <-]. right. reflexivity.
Defined.

(** X16: a POST whose body has a title and no recipe entry is accepted:
    [body.get("recipe", None)] gives [None], whose text is stored, and the
    response is 200 with the recipe [null]. *)
Theorem create_without_recipe_stores_null `{JsonModule} `{TitleColumn}
    (s : Store) (jwt_payload : json) (kvs : list (string * json)) (ttl : string) :
  dict_lookup "title" kvs = Some (JStr ttl) →
  dict_lookup "recipe" kvs = None →
  ¬ Drink.title_taken ttl None s →
  json_loads (json_dumps JNull) = Some JNull →
  dispatch_request (create_drink jwt_payload (JsonRequest (JObj kvs))) s =
    (mkResponse 200
       (JsonBody (JObj [("success", JBool true);
                        ("drinks", JArr [JObj [("id", JNum (Drink.next_id s));
                                               ("title", JStr ttl);
                                               ("recipe", JNull)]])])),
     <[Drink.next_id s := mkRow ttl (json_dumps JNull)]> s).
Proof.
  intros Httl Hrcp Hfree Hnull. unfold dispatch_request.
  rewrite create_drink_object, Httl, Hrcp. simpl. rewrite title_text_str.
  destruct (decide (Drink.title_taken ttl None s)); [done|]. by rewrite Hnull.
Qed.

Lemma create_without_recipe_stores_null_witness :
  dispatch_request (create_drink JNull (JsonRequest (JObj [("title", JStr "Tap water")])))
    two_drinks =
    (mkResponse 200
       (JsonBody (JObj [("success", JBool true);
                        ("drinks", JArr [JObj [("id", JNum (Drink.next_id two_drinks));
                                               ("title", JStr "Tap water");
                                               ("recipe", JNull)]])])),
     <[Drink.next_id two_drinks := mkRow "Tap water" (json_dumps JNull)]> two_drinks).
Proof.
  apply (create_without_recipe_stores_null two_drinks JNull [("title", JStr "Tap water")]
           "Tap water").
  - reflexivity.
  - reflexivity.
  - by_evaluation.
  - vm_compute. reflexivity.
Defined.

(** X17: when [json.loads] reads back what [json.dumps] writes and the
    stored recipe texts decode, a POST, PATCH or DELETE that is not answered
    200 leaves the store as it was. *)
Theorem failed_write_changes_nothing `{JsonModule} `{TitleColumn}
    (s : Store) (jwt_payload : json) (drink_id : Z) (request : Request) :
  round_trips →
  all_decodable s →
  (status (dispatch_request (create_drink jwt_payload request) s).1 ≠ 200 →
   (dispatch_request (create_drink jwt_payload request) s).2 = s) ∧
  (status (dispatch_request (modify_drink jwt_payload drink_id request) s).1 ≠ 200 →
   (dispatch_request (modify_drink jwt_payload drink_id request) s).2 = s) ∧
  (status (dispatch_request (delete_drink jwt_payload drink_id) s).1 ≠ 200 →
   (dispatch_request (delete_drink jwt_payload drink_id) s).2 = s).
Proof.
  intros Hjson Hs. unfold dispatch_request. refine (conj _ (conj _ _)).
  - destruct (create_drink_outcomes s jwt_payload request)
      as [->|[->|[->|(kvs & ttl & _ & _ & _ & [(v & _ & ->)|[Hnone _]])]]];
      simpl; try done.
    by rewrite Hjson in Hnone.
  - destruct (modify_drink_outcomes s jwt_payload drink_id request)
      as [(_ & _ & ->)|[->|(row & kvs & ttl & Hk & _ & _ & _ & [(v & _ & ->)|[Hnone _]])]];
      simpl; try done.
    destruct (patched_recipe_decodable Hjson row kvs (Hs drink_id row Hk)) as [v Hv].
    congruence.
  - destruct (delete_drink_outcomes s jwt_payload drink_id)
      as [(_ & _ & ->)|[(_ & _ & ->)|[_ ->]]]; simpl; done.
Qed.

Lemma failed_write_changes_nothing_witness :
  (status (dispatch_request
             (create_drink JNull (JsonRequest (JObj [("title", JStr "Latte")])))
             two_drinks).1 ≠ 200 →
   (dispatch_request
      (create_drink JNull (JsonRequest (JObj [("title", JStr "Latte")])))
      two_drinks).2 = two_drinks) ∧
  (status (dispatch_request
             (modify_drink JNull 3 (JsonRequest (JObj [("title", JStr "Latte")])))
             two_drinks).1 ≠ 200 →
   (dispatch_request
      (modify_drink JNull 3 (JsonRequest (JObj [("title", JStr "Latte")])))
      two_drinks).2 = two_drinks) ∧
  (status (dispatch_request (delete_drink JNull 3) two_drinks).1 ≠ 200 →
   (dispatch_request (delete_drink JNull 3) two_drinks).2 = two_drinks).
Proof.
  apply (failed_write_changes_nothing two_drinks JNull 3
           (JsonRequest (JObj [("title", JStr "Latte")]))).
  - exact PyJsonFacts.loads_dumps.
  - by_evaluation.
Defined.

(** X18: on a store whose recipe texts decode, the record a PATCH returns
    is listed by the following GET /drinks-detail, and it is the only entry
    of that listing with its id. *)
Theorem patched_record_is_listed `{JsonModule} `{TitleColumn}
    (s : Store) (jwt_payload jwt_payload' : json) (drink_id : Z) (request : Request)
    (v : json) :
  all_decodable s →
  drinks_of (dispatch_request (modify_drink jwt_payload drink_id request) s).1 = Some [v] →
  ∃ views,
    drinks_of
      (dispatch_request (get_drinks_detail jwt_payload')
         (dispatch_request (modify_drink jwt_payload drink_id request) s).2).1 = Some views ∧
    v ∈ views ∧
    ∀ v', v' ∈ views → field "id" v' = Some (JNum drink_id) → v' = v.
Proof.
  intros Hs. unfold dispatch_request.
  destruct (modify_drink_outcomes s jwt_payload drink_id request)
    as [(_ & _ & ->)|[->|(row & kvs & ttl & Hk & _ & _ & _ & [(w & Hw & ->)|[_ ->]])]];
    simpl; try discriminate.
  intros [= <-]. set (row' := mkRow ttl (patched_recipe row kvs)).
  assert (all_decodable (<[drink_id := row']> s)) as Hs'.
  { apply map_Forall_insert_2; [|done]. unfold decodable. simpl. by rewrite Hw. }
  destruct (get_drinks_detail_lists_all (<[drink_id := row']> s) jwt_payload'
              (insert_non_empty _ _ _) Hs')
    as (views & Hresp & rows & Hperm & _ & Hviews).
  exists views. rewrite Hresp. simpl. split; [done|]. split.
  - assert ((drink_id, row') ∈ rows) as [i Hi]%list_elem_of_lookup.
    { rewrite Hperm. apply elem_of_map_to_list, lookup_insert_eq. }
    destruct (Forall2_lookup_l _ _ _ i _ Hviews Hi) as (v' & Hv' & Hlong & _).
    rewrite (long_of_row drink_id row' w Hw) in Hlong. injection Hlong as <-.
    by apply list_elem_of_lookup_2 in Hv'.
  - intros v' [i Hi]%list_elem_of_lookup Hid.
    destruct (Forall2_lookup_r _ _ _ i _ Hviews Hi) as ([k' r'] & Hrow & Hlong & Hid').
    rewrite Hid in Hid'. simpl in Hid'. assert (k' = drink_id) as -> by congruence.
    apply list_elem_of_lookup_2 in Hrow. rewrite Hperm in Hrow.
    apply elem_of_map_to_list in Hrow. simpl in Hrow.
    rewrite lookup_insert_eq in Hrow. injection Hrow as <-.
    rewrite (long_of_row drink_id row' w Hw) in Hlong. by injection Hlong as <-.
Qed.

Lemma patched_record_is_listed_witness :
  ∃ views,
    drinks_of
      (dispatch_request (get_drinks_detail JNull)
         (dispatch_request
            (modify_drink JNull 3 (JsonRequest (JObj [("title", JStr "Still water")])))
            two_drinks).2).1 = Some views ∧
    JObj [("id", JNum 3); ("title", JStr "Still water"); ("recipe", water_recipe)] ∈ views ∧
    ∀ v', v' ∈ views → field "id" v' = Some (JNum 3) →
          v' = JObj [("id", JNum 3); ("title", JStr "Still water"); ("recipe", water_recipe)].
Proof.
  apply (patched_record_is_listed two_drinks JNull JNull 3
           (JsonRequest (JObj [("title", JStr "Still water")]))).
  - by_evaluation.
  - vm_compute. reflexivity.
Defined.
